(** * Role-based access control of the admin-management API

    A shallow embedding of the Express application: the two middleware
    modules ([middleware/auth.js], [middleware/rbac.js]) and the route
    handlers of [routes/auth.js] and [routes/admin.js], followed by the
    properties of the authorization model.

    Conventions of the embedding
    - a JavaScript value is a [JsVal]; objects are association lists in
      insertion order, looked up by own key;
    - an expression that may raise is a [Completion];
    - the middleware run in the monad [M], which also records the keys read
      from the decoded identity [req.user];
    - the Mongo collection of users is a finite map from [_id] to record. *)

From Stdlib Require Import Ascii String.
From stdpp Require Import base option list strings gmap fin_maps.

Set Default Proof Using "Type".
#[local] Set Warnings "-register-all".
Open Scope string_scope.

(** ** JavaScript values *)

Inductive JsVal : Type :=
  | JUndefined
  | JNull
  | JBool (b : bool)
  | JNum (n : Z)
  | JStr (s : string)
  | JArr (items : list JsVal)
  | JObj (fields : list (string * JsVal)).

(** Own-property lookup in an object literal; the first binding of a key is
    the one that counts. *)
Fixpoint assoc {A : Type} (k : string) (l : list (string * A)) : option A :=
  match l with
  | [] => None
  | (k', v) :: l' => if String.eqb k k' then Some v else assoc k l'
  end.

(** [ToBoolean]: what [!v] and [v || w] test. *)
Definition truthy (v : JsVal) : bool :=
  match v with
  | JUndefined | JNull => false
  | JBool b => b
  | JNum n => negb (n =? 0)%Z
  | JStr s => negb (String.eqb s "")
  | JArr _ | JObj _ => true
  end.

(** [v === "s"] for a string literal on the right. *)
Definition strict_eq_str (v : JsVal) (s : string) : bool :=
  match v with
  | JStr s' => String.eqb s' s
  | _ => false
  end.

(** ** Completions: a value, or a raised exception with its message *)

Inductive Completion (A : Type) : Type :=
  | Normal (a : A)
  | Throw (message : string).
Arguments Normal {A} a.
Arguments Throw {A} message.

(** [v[k]] and [v.k].  Reading a property of [undefined] or [null] raises a
    TypeError; a missing key reads as [undefined].  Only own keys are
    looked up: the keys the application reads ([role], [permissions], the
    four permission names) are not members of any built-in prototype. *)
Definition prop (v : JsVal) (k : string) : Completion JsVal :=
  match v with
  | JUndefined => Throw "Cannot read properties of undefined"
  | JNull => Throw "Cannot read properties of null"
  | JObj fields => Normal (default JUndefined (assoc k fields))
  | JBool _ | JNum _ | JStr _ | JArr _ => Normal JUndefined
  end.

(** ** The middleware monad

    A computation yields the keys of [req.user] it has read, in order, and
    a completion. *)

Definition M (A : Type) : Type := list string * Completion A.

Definition M_ret {A} (a : A) : M A := ([], Normal a).
Definition M_bind {A B} (m : M A) (f : A → M B) : M B :=
  match m with
  | (t, Normal a) => let '(t', r) := f a in ((t ++ t')%list, r)
  | (t, Throw e) => (t, Throw e)
  end.

Notation "x ←ₘ m ; k" := (M_bind m (λ x, k))
  (at level 100, m at next level, right associativity,
   format "x  ←ₘ  m ; '/' k").

Definition reads {A} (m : M A) : list string := m.1.
Definition completion {A} (m : M A) : Completion A := m.2.

(** ** Requests and responses *)

(** [req.body] of the JSON routes: the text fields are present or absent;
    [permissions] is whatever JSON the caller sent ([JUndefined] when the
    key is missing). *)
Record Body := mkBody {
  b_name : option string;
  b_email : option string;
  b_password : option string;
  b_permissions : JsVal
}.

Definition empty_body : Body := mkBody None None None JUndefined.

Record Request := mkRequest {
  authorization : option string;   (* req.headers.authorization *)
  cookie_token : option string;    (* req.cookies.token *)
  user : JsVal;                    (* req.user, undefined until set *)
  params_id : string;              (* req.params.id *)
  body : Body
}.

Definition set_user (req : Request) (decoded : JsVal) : Request :=
  mkRequest (authorization req) (cookie_token req) decoded
            (params_id req) (body req).

Inductive CookieOp : Type :=
  | SetCookie (name value : string) (httpOnly secure : bool) (maxAge : Z)
  | ClearCookie (name : string).

Record Response := mkResponse {
  status : nat;
  json : JsVal;
  cookies : list CookieOp
}.

(** [res.status(code).json({ message })] *)
Definition respond (code : nat) (message : string) : Response :=
  mkResponse code (JObj [("message", JStr message)]) [].

(** The [message] member of a response body. *)
Definition message_of (res : Response) : JsVal :=
  default JUndefined (match json res with JObj fs => assoc "message" fs | _ => None end).

(** What a middleware does with a request: answer it, or call [next()]
    with the (possibly extended) request. *)
Inductive Outcome : Type :=
  | Respond (res : Response)
  | Next (req : Request).

Definition Middleware : Type := Request → M Outcome.

(** ** middleware/rbac.js *)

(** A logged read of a member of the decoded identity. *)
Definition user_prop (v : JsVal) (k : string) : M JsVal := ([k], prop v k).

(** The four permission flags of the data model. *)
Inductive Permission : Type :=
  | dashboard | collegeManagement | contentEditing | viewData.

Definition permission_name (p : Permission) : string :=
  match p with
  | dashboard => "dashboard"
  | collegeManagement => "collegeManagement"
  | contentEditing => "contentEditing"
  | viewData => "viewData"
  end.

Global Instance Permission_eq_dec : EqDecision Permission.
Proof. solve_decision. Defined.

Definition checkRole (role : string) : Middleware := λ req,
  if negb (truthy (user req)) then
    M_ret (Respond (respond 401 "Authentication required"))
  else
    r ←ₘ user_prop (user req) "role";
    if negb (strict_eq_str r role) then
      M_ret (Respond (respond 403 "Access denied: Insufficient permissions"))
    else M_ret (Next req).

Definition permission_denied (permission : string) : Response :=
  respond 403 ("Access denied: '" ++ permission ++ "' permission required").

Definition checkPermission (permission : string) : Middleware := λ req,
  if negb (truthy (user req)) then
    M_ret (Respond (respond 401 "Authentication required"))
  else
    r ←ₘ user_prop (user req) "role";
    if strict_eq_str r "admin" then M_ret (Next req)
    else
      ps ←ₘ user_prop (user req) "permissions";
      if negb (truthy ps) then M_ret (Respond (permission_denied permission))
      else
        ps' ←ₘ user_prop (user req) "permissions";
        flag ←ₘ user_prop ps' permission;
        if negb (truthy flag) then
          M_ret (Respond (permission_denied permission))
        else M_ret (Next req).

(** ** The data model *)

Inductive Role : Type := admin | sub_admin.

Global Instance Role_eq_dec : EqDecision Role.
Proof. solve_decision. Defined.

Definition role_name (r : Role) : string :=
  match r with
  | admin => "admin"
  | sub_admin => "sub-admin"
  end.

Definition is_role (r r' : Role) : bool :=
  String.eqb (role_name r) (role_name r').

(** A stored user document, without its [_id]: the collection maps each
    [_id] to its record.  [password] holds the stored derivation. *)
Record User := mkUser {
  name : string;
  email : string;
  password : string;
  role : Role;
  permissions : list (string * bool)
}.

(** A document together with its [_id]. *)
Definition Doc : Type := string * User.

Definition flags_to_js (ps : list (string * bool)) : list (string * JsVal) :=
  (λ kv, (kv.1, JBool kv.2)) <$> ps.

(** The libraries and the process environment the application is linked
    against: [jsonwebtoken] with a well-formed key and lifetime, under which
    signing returns a token, the secret derivation and comparison of the
    User model, [NODE_ENV], and the ObjectId type of the driver: which
    strings cast to an identifier, and the generator of identifiers, which
    returns a well-formed one that is not in use. *)
Class Externals := {
  jwt_sign : JsVal → string;
  jwt_verify : string → Completion JsVal;
  derive_secret : string → string;
  comparePassword : User → option string → Completion bool;
  NODE_ENV : option string;
  newObjectId : gset string → string;
  newObjectId_fresh : ∀ ids, newObjectId ids ∉ ids;
  isObjectId : string → bool;
  newObjectId_valid : ∀ ids, isObjectId (newObjectId ids) = true
}.

(** The identity context: the claims of a token, as the gates see them once
    decoded.  The permissions claim may be missing, and so may any flag. *)
Record IdentityContext := mkIdentity {
  ctx_id : string;
  ctx_email : string;
  ctx_role : string;
  ctx_permissions : option (list (string * bool))
}.

Definition identity_to_js (c : IdentityContext) : JsVal :=
  JObj ([("id", JStr (ctx_id c)); ("email", JStr (ctx_email c));
         ("role", JStr (ctx_role c))]
        ++ match ctx_permissions c with
           | Some ps => [("permissions", JObj (flags_to_js ps))]
           | None => []
           end)%list.

(** A decoded token carries the identity context [c]: its claims are those
    of [c], next to whatever else the codec adds (issue and expiry times). *)
Definition carries (v : JsVal) (c : IdentityContext) : Prop :=
  ∃ claims,
    v = JObj claims
    ∧ assoc "id" claims = Some (JStr (ctx_id c))
    ∧ assoc "email" claims = Some (JStr (ctx_email c))
    ∧ assoc "role" claims = Some (JStr (ctx_role c))
    ∧ assoc "permissions" claims
      = (λ ps, JObj (flags_to_js ps)) <$> ctx_permissions c.

(** [context.permissions[name]], when there is such a flag. *)
Definition ctx_flag (c : IdentityContext) (p : Permission) : option bool :=
  ps ← ctx_permissions c; assoc (permission_name p) ps.

(** The snapshot that a token for a stored user carries. *)
Definition identity_of (d : Doc) : IdentityContext :=
  mkIdentity d.1 (email d.2) (role_name (role d.2)) (Some (permissions d.2)).

(** ** middleware/auth.js *)

(** [s.split(" ")] *)
Fixpoint split_space (s : string) : list string :=
  match s with
  | EmptyString => [""]
  | String c s' =>
      if Ascii.eqb c " "%char then "" :: split_space s'
      else match split_space s' with
           | seg :: rest => String c seg :: rest
           | [] => [String c ""]
           end
  end.

(** [a || b] on values that are a string or [undefined]. *)
Definition or_else (a b : option string) : option string :=
  match a with
  | Some s => if String.eqb s "" then b else Some s
  | None => b
  end.

(** [req.headers.authorization?.split(" ")[1] || req.cookies.token] *)
Definition candidate_token (req : Request) : option string :=
  or_else (h ← authorization req; split_space h !! 1%nat) (cookie_token req).

Section auth.
Context `{!Externals}.

Definition payload (d : Doc) : JsVal :=
  JObj [("id", JStr d.1); ("email", JStr (email d.2));
        ("role", JStr (role_name (role d.2)));
        ("permissions", JObj (flags_to_js (permissions d.2)))].

Definition generateToken (d : Doc) : string := jwt_sign (payload d).

Definition verifyToken : Middleware := λ req,
  match candidate_token req with
  | None | Some EmptyString =>
      M_ret (Respond (respond 401 "Authentication required"))
  | Some token =>
      match jwt_verify token with
      | Normal decoded => M_ret (Next (set_user req decoded))
      | Throw _ => M_ret (Respond (respond 401 "Invalid or expired token"))
      end
  end.
End auth.

(** ** The credential store *)

Abbreviation Store := (gmap string User).

Global Instance Completion_ret : MRet Completion := λ A a, Normal a.
Global Instance Completion_bind : MBind Completion := λ A B f c,
  match c with
  | Normal a => f a
  | Throw e => Throw e
  end.

(** Query filters, as the handlers write them. *)
Definition by_role (r : Role) : Doc → bool := λ d, is_role (role d.2) r.
Definition by_email (e : option string) : Doc → bool := λ d,
  match e with
  | Some s => String.eqb (email d.2) s
  | None => false
  end.
Definition by_id_role (id : string) (r : Role) : Doc → bool := λ d,
  String.eqb d.1 id && is_role (role d.2) r.

(** [User.find(filter)] and [User.findOne(filter)] *)
Definition find (f : Doc → bool) (db : Store) : list Doc :=
  List.filter f (map_to_list db).
Definition findOne (f : Doc → bool) (db : Store) : option Doc :=
  head (find f db).

(** [User.findOneAndDelete(filter)] *)
Definition findOneAndDelete (f : Doc → bool) (db : Store)
  : Store * option Doc :=
  match findOne f db with
  | Some d => (delete d.1 db, Some d)
  | None => (db, None)
  end.

(** Modelled from the spec: the Boolean type of the schema of
    models/User.js, which is not among the sources.  A supplied value is
    taken as the boolean it stands for, the way the schema library casts to
    Boolean: [true], ["true"], [1], ["1"], ["yes"] and [false], ["false"],
    [0], ["0"], ["no"]; [null] and [undefined] count as not set; nothing
    else is a boolean ([None]). *)
Definition cast_boolean (v : JsVal) : option bool :=
  match v with
  | JBool b => Some b
  | JNum n => if (n =? 1)%Z then Some true
              else if (n =? 0)%Z then Some false else None
  | JStr s => if String.eqb s "true" || String.eqb s "1" || String.eqb s "yes"
              then Some true
              else if String.eqb s "false" || String.eqb s "0"
                      || String.eqb s "no"
              then Some false else None
  | JUndefined | JNull => Some false
  | JArr _ | JObj _ => None
  end.

(** Modelled from the spec: the schema of models/User.js, which is not among
    the sources.  Each of the four permission flags is a boolean that
    defaults to [false] unless explicitly set; keys outside the schema are
    not stored; a value that does not cast to a boolean is rejected. *)
Definition cast_flag (o : list (string * JsVal)) (p : Permission)
  : Completion bool :=
  match assoc (permission_name p) o with
  | None => Normal false
  | Some v =>
      match cast_boolean v with
      | Some b => Normal b
      | None => Throw "Cast to Boolean failed"
      end
  end.

Definition cast_permissions (v : JsVal) : Completion (list (string * bool)) :=
  match v with
  | JObj o =>
      d ← cast_flag o dashboard;
      c ← cast_flag o collegeManagement;
      e ← cast_flag o contentEditing;
      w ← cast_flag o viewData;
      mret [("dashboard", d); ("collegeManagement", c);
            ("contentEditing", e); ("viewData", w)]
  | _ => Throw "Cast to Object failed"
  end.

(** Modelled from the spec: the validators of models/User.js.  [name],
    [email] and the secret are required and non-empty. *)
Definition required (path : string) (v : option string) : Completion string :=
  match v with
  | Some s => if String.eqb s "" then Throw ("Path `" ++ path ++ "` is required.")
              else Normal s
  | None => Throw ("Path `" ++ path ++ "` is required.")
  end.

(** Modelled from the spec: [email] is unique across all users.  [self] is
    the document being written, if it is already stored. *)
Definition email_taken (db : Store) (self : option string) (e : string) : bool :=
  existsb (λ d : Doc, String.eqb (email d.2) e
                      && negb (bool_decide (self = Some d.1)))
          (map_to_list db).

Definition unique_email (db : Store) (self : option string) (e : string)
  : Completion string :=
  if email_taken db self e then Throw "E11000 duplicate key error"
  else Normal e.

(** The argument of [new User({ ... })]. *)
Record Draft := mkDraft {
  d_name : option string;
  d_email : option string;
  d_password : option string;
  d_role : Role;
  d_permissions : JsVal
}.

(** The double quote, for messages that quote a value. *)
Definition dquote : string := String (Ascii.ascii_of_nat 34) EmptyString.

(** The message of the error raised for an [_id] that is not an ObjectId. *)
Definition cast_error (id : string) : string :=
  "Cast to ObjectId failed for value " ++ dquote ++ id ++ dquote
  ++ " (type string) at path " ++ dquote ++ "_id" ++ dquote
  ++ " for model " ++ dquote ++ "User" ++ dquote.

Section model.
Context `{!Externals}.

(** The cast of a route parameter to the type of [_id], which a query with
    [_id] in its filter performs before it runs: a string that is not an
    ObjectId makes the query raise. *)
Definition castObjectId (id : string) : Completion string :=
  if isObjectId id then Normal id else Throw (cast_error id).

(** The filter [{ _id: id, role: r }], as the query casts it. *)
Definition id_role_filter (id : string) (r : Role) : Completion (Doc → bool) :=
  id' ← castObjectId id; mret (by_id_role id' r).

(** Modelled from the spec: [doc.save()] of a new document.  The draft is
    cast and validated, the secret is stored as its derivation, and the
    record enters the collection under a system-assigned identifier. *)
Definition save (db : Store) (d : Draft) : Completion (Store * Doc) :=
  ps ← cast_permissions (d_permissions d);
  n ← required "name" (d_name d);
  e ← required "email" (d_email d);
  pw ← required "password" (d_password d);
  e' ← unique_email db None e;
  let id := newObjectId (dom db) in
  let u := mkUser n e' (derive_secret pw) (d_role d) ps in
  mret (<[id := u]> db, (id, u)).

(** Modelled from the spec: the update document
    [{ $set: { name, email, permissions } }] applied to a stored record
    with [runValidators].  A member whose value is [undefined] is not part
    of the update; the others are cast and validated like on creation. *)
Definition apply_set (db : Store) (d : Doc) (b : Body) : Completion User :=
  n ← match b_name b with
      | None => Normal (name d.2)
      | Some s => required "name" (Some s)
      end;
  e ← match b_email b with
      | None => Normal (email d.2)
      | Some s => s' ← required "email" (Some s); unique_email db (Some d.1) s'
      end;
  ps ← match b_permissions b with
       | JUndefined => Normal (permissions d.2)
       | v => cast_permissions v
       end;
  mret (mkUser n e (password d.2) (role d.2) ps).

(** [User.findOneAndUpdate(filter, { $set: ... }, { new: true, runValidators: true })] *)
Definition findOneAndUpdate (f : Doc → bool) (b : Body) (db : Store)
  : Completion (Store * option Doc) :=
  match findOne f db with
  | Some d => u' ← apply_set db d b; mret (<[d.1 := u']> db, Some (d.1, u'))
  | None => mret (db, None)
  end.
End model.

(** ** Routing *)

(** A route handler works on the store and answers the request. *)
Definition Handler : Type := Store → Request → Store * Response.

(** [try { ... } catch (error) { res.status(500).json({ message: error.message }) }] *)
Definition try_catch (db : Store) (c : Completion (Store * Response))
  : Store * Response :=
  match c with
  | Normal r => r
  | Throw e => (db, respond 500 e)
  end.

(** A middleware array run in order; the first answer ends the chain. *)
Fixpoint run_chain (chain : list Middleware) (req : Request) : M Outcome :=
  match chain with
  | [] => M_ret (Next req)
  | mw :: rest =>
      o ←ₘ mw req;
      match o with
      | Respond res => M_ret (Respond res)
      | Next req' => run_chain rest req'
      end
  end.

Section routes.
Context `{!Externals}.

(** The error-handling middleware of app.js. *)
Definition error_handler (e : string) : Response :=
  mkResponse 500
    (JObj (("message", JStr "Something went wrong!")
           :: if bool_decide (NODE_ENV = Some "development")
              then [("error", JStr e)] else []))
    [].

(** [router.METHOD(path, chain, handler)] *)
Definition route (chain : list Middleware) (h : Handler) : Handler :=
  λ db req,
    match completion (run_chain chain req) with
    | Normal (Respond res) => (db, res)
    | Normal (Next req') => h db req'
    | Throw e => (db, error_handler e)
    end.

(** *** routes/auth.js *)

Definition all_true : JsVal :=
  JObj [("dashboard", JBool true); ("collegeManagement", JBool true);
        ("contentEditing", JBool true); ("viewData", JBool true)].

(** POST /auth/admin/signup *)
Definition admin_signup : Handler := λ db req,
  try_catch db
    match findOne (by_role admin) db with
    | Some _ => Normal (db, respond 400 "Admin account already exists")
    | None =>
        let b := body req in
        r ← save db (mkDraft (b_name b) (b_email b) (b_password b)
                             admin all_true);
        let token := generateToken r.2 in
        mret (r.1, mkResponse 201
                     (JObj [("message", JStr "Admin account created successfully");
                            ("token", JStr token)]) [])
    end.

(** POST /auth/login *)
Definition login : Handler := λ db req,
  try_catch db
    match findOne (by_email (b_email (body req))) db with
    | None => Normal (db, respond 401 "Invalid credentials")
    | Some d =>
        isMatch ← comparePassword d.2 (b_password (body req));
        if negb isMatch then Normal (db, respond 401 "Invalid credentials")
        else
          let token := generateToken d in
          mret (db, mkResponse 200
                      (JObj [("message", JStr "Login successful");
                             ("user", JObj [("id", JStr d.1);
                                            ("name", JStr (name d.2));
                                            ("email", JStr (email d.2));
                                            ("role", JStr (role_name (role d.2)));
                                            ("permissions",
                                             JObj (flags_to_js (permissions d.2)))]);
                             ("token", JStr token)])
                      [SetCookie "token" token true
                         (bool_decide (NODE_ENV = Some "production")) 3600000])
    end.

(** POST /auth/logout *)
Definition logout : Handler := λ db req,
  (db, mkResponse 200 (JObj [("message", JStr "Logout successful")])
         [ClearCookie "token"]).

(** *** routes/admin.js *)

Definition adminOnly : list Middleware := [verifyToken; checkRole "admin"].

(** A document as [select("-password")] serialises it. *)
Definition without_password (d : Doc) : JsVal :=
  JObj [("_id", JStr d.1); ("name", JStr (name d.2));
        ("email", JStr (email d.2));
        ("role", JStr (role_name (role d.2)));
        ("permissions", JObj (flags_to_js (permissions d.2)))].

(** POST /admin/sub-admin *)
Definition createSubAdmin : Handler := λ db req,
  try_catch db
    (let b := body req in
     match findOne (by_email (b_email b)) db with
     | Some _ => Normal (db, respond 400 "Email already in use")
     | None =>
         r ← save db (mkDraft (b_name b) (b_email b) (b_password b) sub_admin
                        (if truthy (b_permissions b) then b_permissions b
                         else JObj []));
         let d := r.2 in
         mret (r.1, mkResponse 201
                      (JObj [("message", JStr "Sub-admin created successfully");
                             ("subAdmin",
                              JObj [("id", JStr d.1);
                                    ("name", JStr (name d.2));
                                    ("email", JStr (email d.2));
                                    ("permissions",
                                     JObj (flags_to_js (permissions d.2)))])])
                      [])
     end).

(** GET /admin/sub-admins *)
Definition listSubAdmins : Handler := λ db req,
  (db, mkResponse 200
         (JObj [("subAdmins",
                 JArr (without_password <$> find (by_role sub_admin) db))])
         []).

(** GET /admin/sub-admin/:id *)
Definition getSubAdmin : Handler := λ db req,
  try_catch db
    (f ← id_role_filter (params_id req) sub_admin;
     match findOne f db with
     | None => mret (db, respond 404 "Sub-admin not found")
     | Some d =>
         mret (db, mkResponse 200 (JObj [("subAdmin", without_password d)]) [])
     end).

(** PUT /admin/sub-admin/:id *)
Definition updateSubAdmin : Handler := λ db req,
  try_catch db
    (f ← id_role_filter (params_id req) sub_admin;
     r ← findOneAndUpdate f (body req) db;
     match r.2 with
     | None => mret (r.1, respond 404 "Sub-admin not found")
     | Some d =>
         mret (r.1, mkResponse 200
                      (JObj [("message", JStr "Sub-admin updated successfully");
                             ("subAdmin", without_password d)]) [])
     end).

(** DELETE /admin/sub-admin/:id *)
Definition deleteSubAdmin : Handler := λ db req,
  try_catch db
    (f ← id_role_filter (params_id req) sub_admin;
     let r := findOneAndDelete f db in
     match r.2 with
     | None => mret (r.1, respond 404 "Sub-admin not found")
     | Some _ => mret (r.1, respond 200 "Sub-admin deleted successfully")
     end).

(** *** routes/features.js *)

Definition feature_body (p : Permission) : JsVal :=
  match p with
  | dashboard =>
      JObj [("message", JStr "Dashboard data retrieved successfully");
            ("data", JObj [("stats", JObj [("users", JNum 120);
                                           ("colleges", JNum 45);
                                           ("activities", JNum 890)])])]
  | collegeManagement =>
      JObj [("message", JStr "College data retrieved successfully");
            ("data",
             JObj [("colleges",
                    JArr [JObj [("id", JNum 1); ("name", JStr "Example College");
                                ("students", JNum 1200)];
                          JObj [("id", JNum 2); ("name", JStr "Sample University");
                                ("students", JNum 3500)]])])]
  | contentEditing => JObj [("message", JStr "Content updated successfully")]
  | viewData =>
      JObj [("message", JStr "Data retrieved successfully"); ("data", JObj [])]
  end.

Definition feature (p : Permission) : Handler := λ db req,
  (db, mkResponse 200 (feature_body p) []).

(** *** app.js: the routers mounted under /api *)

Inductive Endpoint : Type :=
  | POST_auth_admin_signup
  | POST_auth_login
  | POST_auth_logout
  | POST_admin_sub_admin
  | GET_admin_sub_admins
  | GET_admin_sub_admin
  | PUT_admin_sub_admin
  | DELETE_admin_sub_admin
  | features (p : Permission).

(** The middleware array each endpoint is registered with. *)
Definition chain_of (e : Endpoint) : list Middleware :=
  match e with
  | POST_auth_admin_signup | POST_auth_login | POST_auth_logout => []
  | features p => [verifyToken; checkPermission (permission_name p)]
  | _ => adminOnly
  end.

Definition handler_of (e : Endpoint) : Handler :=
  match e with
  | POST_auth_admin_signup => admin_signup
  | POST_auth_login => login
  | POST_auth_logout => logout
  | POST_admin_sub_admin => createSubAdmin
  | GET_admin_sub_admins => listSubAdmins
  | GET_admin_sub_admin => getSubAdmin
  | PUT_admin_sub_admin => updateSubAdmin
  | DELETE_admin_sub_admin => deleteSubAdmin
  | features p => feature p
  end.

Definition app (e : Endpoint) : Handler := route (chain_of e) (handler_of e).
End routes.

(** The endpoints registered behind [verifyToken]. *)
Definition protected (e : Endpoint) : bool :=
  match e with
  | POST_auth_admin_signup | POST_auth_login | POST_auth_logout => false
  | _ => true
  end.

(** A request that has passed the authentication gate with identity [c]. *)
Definition request_of (c : IdentityContext) : Request :=
  mkRequest None None (identity_to_js c) "" empty_body.

(** The member [k] of a JSON value sent by a caller, if it has one. *)
Definition own_key (v : JsVal) (k : string) : option JsVal :=
  match v with
  | JObj o => assoc k o
  | _ => None
  end.

(** A caller's permissions input whose four members, where present, stand
    for booleans; and one that is besides an object or a falsy value, which
    [permissions || {}] replaces by the empty object. *)
Definition flags_castable (v : JsVal) : Prop :=
  ∀ p w, own_key v (permission_name p) = Some w → is_Some (cast_boolean w).

Definition permissions_accepted (v : JsVal) : Prop :=
  (truthy v = false ∨ ∃ o, v = JObj o) ∧ flags_castable v.

(** A header field without a space in it. *)
Fixpoint no_space (s : string) : bool :=
  match s with
  | EmptyString => true
  | String c s' => negb (Ascii.eqb c " "%char) && no_space s'
  end.

(** ** A small instance to run the application on

    Tokens are looked up in a table.  An identifier is a string of at least
    twenty-four hexadecimal digits; a fresh one is a run of zeros of a
    length that no identifier in use has. *)
Module Demo.
Fixpoint zeros (n : nat) : string :=
  match n with
  | O => ""
  | S n' => String "0" (zeros n')
  end.

Definition objectId (ids : gset string) : string :=
  zeros (24 + fresh (set_map (λ s, String.length s - 24)%nat ids : gset nat)).

Definition hex_digit (c : Ascii.ascii) : bool :=
  existsb (Ascii.eqb c) (list_ascii_of_string "0123456789abcdefABCDEF").

Fixpoint all_hex (s : string) : bool :=
  match s with
  | EmptyString => true
  | String c s' => hex_digit c && all_hex s'
  end.

Definition objectId_shaped (s : string) : bool :=
  all_hex s && (24 <=? String.length s)%nat.

Definition admin_identity : IdentityContext :=
  mkIdentity "64b7f0c2a1d34e5f6a7b8c01" "admin@example.com" "admin"
    (Some [("dashboard", false); ("collegeManagement", true);
           ("contentEditing", true); ("viewData", true)]).

Definition sub_identity : IdentityContext :=
  mkIdentity "64b7f0c2a1d34e5f6a7b8c02" "sub1@example.com" "sub-admin"
    (Some [("dashboard", true); ("collegeManagement", false);
           ("contentEditing", false); ("viewData", false)]).

Definition bare_identity : IdentityContext :=
  mkIdentity "64b7f0c2a1d34e5f6a7b8c03" "sub2@example.com" "sub-admin" None.

Definition verify (token : string) : Completion JsVal :=
  if String.eqb token "admin.jwt" then Normal (identity_to_js admin_identity)
  else if String.eqb token "sub-admin.jwt" then Normal (identity_to_js sub_identity)
  else if String.eqb token "bare.jwt" then Normal (identity_to_js bare_identity)
  else Throw "jwt malformed".

Definition sign (payload : JsVal) : string :=
  match prop payload "role" with
  | Normal (JStr r) => r ++ ".jwt"
  | _ => "jwt"
  end.

Definition derive (s : string) : string := "$2b$" ++ s.

Definition compare (u : User) (candidate : option string)
  : Completion bool :=
  match candidate with
  | Some s => Normal (String.eqb (derive s) (password u))
  | None => Throw "data and hash arguments required"
  end.

Lemma zeros_length n : String.length (zeros n) = n.
Proof. induction n as [|n IH]; simpl; [done | by rewrite IH]. Qed.

Lemma objectId_fresh (ids : gset string) : objectId ids ∉ ids.
Proof.
  intros Hin.
  apply (is_fresh (set_map (λ s, String.length s - 24)%nat ids : gset nat)).
  apply elem_of_map. exists (objectId ids).
  split; [|done]. unfold objectId at 1. rewrite zeros_length. lia.
Qed.

Lemma zeros_hex n : all_hex (zeros n) = true.
Proof. induction n as [|n IH]; simpl; [done | by rewrite IH]. Qed.

Lemma objectId_valid (ids : gset string) : objectId_shaped (objectId ids) = true.
Proof.
  unfold objectId_shaped, objectId. apply andb_true_iff. split.
  - apply zeros_hex.
  - rewrite zeros_length. apply Nat.leb_le. lia.
Qed.

#[global] Instance externals : Externals | 100 := {|
  jwt_sign := sign;
  jwt_verify := verify;
  derive_secret := derive;
  comparePassword := compare;
  NODE_ENV := Some "production";
  newObjectId := objectId;
  newObjectId_fresh := objectId_fresh;
  isObjectId := objectId_shaped;
  newObjectId_valid := objectId_valid
|}.
End Demo.

Module Examples.
Definition root : User :=
  mkUser "Admin" "admin@example.com" "$2b$Admin@123" admin
    [("dashboard", true); ("collegeManagement", true);
     ("contentEditing", true); ("viewData", true)].

Definition sub1 : User :=
  mkUser "Sub One" "sub1@example.com" "$2b$Sub@123" sub_admin
    [("dashboard", true); ("collegeManagement", false);
     ("contentEditing", false); ("viewData", false)].

Definition db1 : gmap string User := {[ "64b7f0c2a1d34e5f6a7b8c01" := root ]}.
Definition db2 : gmap string User := <[ "64b7f0c2a1d34e5f6a7b8c02" := sub1 ]> db1.

Definition post (b : Body) : Request := mkRequest None None JUndefined "" b.
End Examples.

(** ** Invariants of the store and classes of endpoints *)

(** At most one record has role admin. *)
Definition at_most_one_admin (db : gmap string User) : Prop :=
  ∀ i j u v, db !! i = Some u → db !! j = Some v →
             role u = admin → role v = admin → i = j.

(** No two records share an email. *)
Definition emails_unique (db : gmap string User) : Prop :=
  ∀ i j u v, db !! i = Some u → db !! j = Some v → email u = email v → i = j.

(** What one request can do to the collection: nothing, add a record under
    an unused identifier (an admin only when there is none), rewrite a
    sub-admin that stays a sub-admin, or remove a sub-admin. *)
Inductive store_step (db : gmap string User) : gmap string User → Prop :=
  | step_none : store_step db db
  | step_create i u :
      db !! i = None →
      (role u = admin → ∀ j v, db !! j = Some v → role v ≠ admin) →
      store_step db (<[i := u]> db)
  | step_update i u u' :
      db !! i = Some u → role u = sub_admin → role u' = sub_admin →
      store_step db (<[i := u']> db)
  | step_delete i u :
      db !! i = Some u → role u = sub_admin →
      store_step db (delete i db).

(** The endpoints of routes/admin.js, registered with [adminOnly]. *)
Definition admin_endpoint (e : Endpoint) : bool :=
  match e with
  | POST_admin_sub_admin | GET_admin_sub_admins | GET_admin_sub_admin
  | PUT_admin_sub_admin | DELETE_admin_sub_admin => true
  | _ => false
  end.

(** The endpoints whose handler has no write to the collection. *)
Definition read_only (e : Endpoint) : bool :=
  match e with
  | POST_auth_login | POST_auth_logout | GET_admin_sub_admins
  | GET_admin_sub_admin | features _ => true
  | _ => false
  end.

(** * Properties *)

(** ** Lookups *)

Lemma assoc_flags_to_js k ps :
  assoc k (flags_to_js ps) = JBool <$> assoc k ps.
Proof.
  induction ps as [|[k' b] ps IH]; simpl; [done|].
  by destruct (String.eqb k k').
Qed.

Lemma find_elem_of f (db : gmap string User) d :
  d ∈ find f db ↔ db !! d.1 = Some d.2 ∧ f d = true.
Proof.
  unfold find. rewrite list_elem_of_In, filter_In, <-list_elem_of_In.
  destruct d as [i u]. by rewrite elem_of_map_to_list.
Qed.

Lemma findOne_Some f (db : gmap string User) d :
  findOne f db = Some d → db !! d.1 = Some d.2 ∧ f d = true.
Proof.
  unfold findOne. intros Hd. apply find_elem_of.
  destruct (find f db) as [|d' l]; simplify_eq/=. left.
Qed.

Lemma findOne_None f (db : gmap string User) :
  findOne f db = None ↔ ∀ i u, db !! i = Some u → f (i, u) = false.
Proof.
  unfold findOne. split.
  - intros Hd i u Hu. destruct (f (i, u)) eqn:Hf; [|done].
    assert ((i, u) ∈ find f db) as Hin by by apply find_elem_of.
    destruct (find f db); [by apply elem_of_nil in Hin | done].
  - intros Hall. destruct (find f db) as [|[i u] l] eqn:Hl; [done|].
    assert ((i, u) ∈ find f db) as [Hu Hf]%find_elem_of by (rewrite Hl; left).
    rewrite (Hall i u Hu) in Hf. done.
Qed.

(** A filter on [_id] selects at most the record stored under it. *)
Lemma filter_by_id (g : User → bool) id (l : list Doc) :
  NoDup l.*1 →
  head (List.filter (λ d : Doc, String.eqb d.1 id && g d.2) l)
  = u ← (list_to_map l : gmap string User) !! id;
    if g u then Some (id, u) else None.
Proof.
  induction l as [|[k v] l IH]; simpl; [done|].
  rewrite NoDup_cons. intros [Hk Hl].
  destruct (String.eqb_spec k id) as [->|Hne]; simpl.
  - rewrite lookup_insert_eq. simpl.
    destruct (g v); simpl; [done|].
    rewrite IH by done.
    by rewrite (not_elem_of_list_to_map_1 l id Hk).
  - rewrite lookup_insert_ne by done. by apply IH.
Qed.

Lemma findOne_by_id_role (db : gmap string User) id r :
  findOne (by_id_role id r) db
  = u ← db !! id; if is_role (role u) r then Some (id, u) else None.
Proof.
  unfold findOne, find, by_id_role.
  rewrite (filter_by_id (λ u, is_role (role u) r))
    by apply NoDup_fst_map_to_list.
  by rewrite list_to_map_to_list.
Qed.

Lemma is_role_eq r r' : is_role r r' = bool_decide (r = r').
Proof. by destruct r, r'. Qed.

(** ** The authorization gate *)

Lemma carries_identity c : carries (identity_to_js c) c.
Proof.
  eexists. split; [done|]. repeat split. by destruct (ctx_permissions c).
Qed.

Lemma carries_role v c : carries v c → prop v "role" = Normal (JStr (ctx_role c)).
Proof. intros (claims & -> & _ & _ & Hr & _). simpl. by rewrite Hr. Qed.

Lemma carries_permissions v c :
  carries v c →
  prop v "permissions"
  = Normal (from_option (λ ps, JObj (flags_to_js ps)) JUndefined (ctx_permissions c)).
Proof.
  intros (claims & -> & _ & _ & _ & Hp). simpl. rewrite Hp.
  by destruct (ctx_permissions c).
Qed.

(** A token issued for a stored user carries an identity context. *)
Lemma payload_identity (d : Doc) : carries (payload d) (identity_of d).
Proof. exact (carries_identity (identity_of d)). Qed.

(** The permission check on any request whose identity is present and is
    not the admin's: it comes down to the truthiness of the flag. *)
Lemma checkPermission_non_admin permission req r ps :
  truthy (user req) = true →
  prop (user req) "role" = Normal r →
  strict_eq_str r "admin" = false →
  prop (user req) "permissions" = Normal ps →
  checkPermission permission req =
    if truthy ps then
      match prop ps permission with
      | Normal flag =>
          (["role"; "permissions"; "permissions"; permission],
           Normal (if truthy flag then Next req
                   else Respond (permission_denied permission)))
      | Throw e => (["role"; "permissions"; "permissions"; permission], Throw e)
      end
    else (["role"; "permissions"],
          Normal (Respond (permission_denied permission))).
Proof.
  intros Hu Hr Hne Hps. unfold checkPermission, user_prop, M_bind, M_ret.
  rewrite Hu, Hr. simpl. rewrite Hne, Hps.
  destruct (truthy ps) eqn:Htr; simpl; [|done].
  destruct (prop ps permission) as [flag|e]; [|done].
  by destruct (truthy flag).
Qed.

(** Neither check ever raises: a property is only read from a value that
    has been tested first. *)
Lemma checkPermission_total permission req :
  ∃ o, completion (checkPermission permission req) = Normal o.
Proof.
  unfold checkPermission, user_prop, M_bind, M_ret, completion.
  destruct (user req) as [| |b|n|s|l|fs] eqn:Hu; simpl; eauto;
    try (destruct b; simpl; eauto);
    try (destruct (negb (n =? 0)%Z); simpl; eauto);
    try (destruct (negb (String.eqb s "")); simpl; eauto).
  destruct (strict_eq_str _ "admin"); simpl; eauto.
  destruct (truthy (default JUndefined (assoc "permissions" fs))) eqn:Hps;
    simpl; eauto.
  destruct (default JUndefined (assoc "permissions" fs)) as [| |b|n|s|l|gs];
    simpl in *; try discriminate;
    repeat match goal with |- context [negb (truthy ?v)] =>
             destruct (truthy v) end; simpl; eauto.
Qed.

Lemma checkRole_total role req :
  ∃ o, completion (checkRole role req) = Normal o.
Proof.
  unfold checkRole, user_prop, M_bind, M_ret, completion.
  destruct (user req) as [| |b|n|s|l|fs] eqn:Hu; simpl; eauto;
    try (destruct b; simpl; eauto);
    try (destruct (negb (n =? 0)%Z); simpl; eauto);
    try (destruct (negb (String.eqb s "")); simpl; eauto);
    destruct (strict_eq_str _ role); simpl; eauto.
Qed.

(** C1: a request whose identity has role admin passes the permission check
    for each of the four permission names, whatever the identity's
    permissions member holds; the only member of the identity that is read
    is [role], so the bypass is decided before the permissions record is
    looked at. *)
Theorem admin_bypass (p : Permission) (req : Request) :
  truthy (user req) = true →
  prop (user req) "role" = Normal (JStr "admin") →
  completion (checkPermission (permission_name p) req) = Normal (Next req)
  ∧ reads (checkPermission (permission_name p) req) = ["role"].
Proof.
  intros Hu Hr. unfold checkPermission, user_prop, M_bind, M_ret.
  rewrite Hu, Hr. done.
Qed.

Lemma admin_bypass_witness :
  let req := request_of Demo.admin_identity in
  (truthy (user req) = true
   ∧ prop (user req) "role" = Normal (JStr "admin")
   ∧ ctx_flag Demo.admin_identity dashboard = Some false)
  ∧ completion (checkPermission "dashboard" req) = Normal (Next req)
  ∧ reads (checkPermission "dashboard" req) = ["role"].
Proof.
  split; [by vm_compute|].
  apply (admin_bypass dashboard (request_of Demo.admin_identity));
    reflexivity.
Defined.

(** The permission check on an identity context that is not the admin's. *)
Lemma checkPermission_identity (c : IdentityContext) (permission : string)
    (req : Request) :
  carries (user req) c →
  ctx_role c ≠ "admin" →
  completion (checkPermission permission req)
  = Normal (if bool_decide ((ps ← ctx_permissions c; assoc permission ps)
                            = Some true)
            then Next req
            else Respond (permission_denied permission)).
Proof.
  intros Hu Hne.
  rewrite (checkPermission_non_admin _ _ (JStr (ctx_role c))
             (from_option (λ ps, JObj (flags_to_js ps)) JUndefined
                          (ctx_permissions c))).
  - destruct (ctx_permissions c) as [ps|]; simpl; [|done].
    rewrite assoc_flags_to_js.
    by destruct (assoc permission ps) as [[]|].
  - by destruct Hu as (claims & -> & _).
  - by apply carries_role.
  - simpl. by apply String.eqb_neq.
  - by apply carries_permissions.
Qed.

(** C2: for an identity whose role is not admin the permission check denies
    with 403 exactly when the identity's flag for the requested name is not
    [true] (false, unset, or no permissions record at all), and lets the
    request through otherwise. *)
Theorem non_admin_gated (c : IdentityContext) (p : Permission) (req : Request) :
  carries (user req) c →
  ctx_role c ≠ "admin" →
  completion (checkPermission (permission_name p) req)
  = Normal (if bool_decide (ctx_flag c p = Some true) then Next req
            else Respond (permission_denied (permission_name p)))
  ∧ status (permission_denied (permission_name p)) = 403.
Proof.
  intros Hu Hne. split; [|done].
  by apply checkPermission_identity.
Qed.

Lemma non_admin_gated_witness :
  let req := request_of Demo.sub_identity in
  (carries (user req) Demo.sub_identity
   ∧ ctx_role Demo.sub_identity ≠ "admin")
  ∧ completion (checkPermission "viewData" req)
    = Normal (Respond (permission_denied "viewData"))
  ∧ status (permission_denied "viewData") = 403.
Proof.
  split; [split; [eexists; repeat split | by vm_compute]|].
  apply (non_admin_gated Demo.sub_identity viewData
                         (request_of Demo.sub_identity));
    [eexists; repeat split | by vm_compute].
Defined.

(** C10: when the identity has a role other than admin and no permissions
    member, the permission check answers 403 for every permission name; it
    returns normally, and never reads a flag of the missing record.  The
    answer is the one an identity whose flag is [false] gets. *)
Theorem missing_permissions_denied (p : Permission) (req : Request) (r : JsVal) :
  truthy (user req) = true →
  prop (user req) "role" = Normal r →
  strict_eq_str r "admin" = false →
  prop (user req) "permissions" = Normal JUndefined →
  checkPermission (permission_name p) req
  = (["role"; "permissions"],
     Normal (Respond (permission_denied (permission_name p))))
  ∧ status (permission_denied (permission_name p)) = 403
  ∧ ∀ c, ctx_role c ≠ "admin" → ctx_flag c p = Some false →
      completion (checkPermission (permission_name p) (request_of c))
      = Normal (Respond (permission_denied (permission_name p))).
Proof.
  intros Hu Hr Hne Hps. split; [|split; [done|]].
  - by rewrite (checkPermission_non_admin _ _ r JUndefined).
  - intros c Hc Hflag.
    rewrite (checkPermission_identity c _ (request_of c) (carries_identity c) Hc).
    unfold ctx_flag in Hflag. by rewrite Hflag.
Qed.

Lemma missing_permissions_denied_witness :
  let req := request_of Demo.bare_identity in
  (truthy (user req) = true
   ∧ prop (user req) "role" = Normal (JStr "sub-admin")
   ∧ strict_eq_str (JStr "sub-admin") "admin" = false
   ∧ prop (user req) "permissions" = Normal JUndefined)
  ∧ checkPermission "contentEditing" req
    = (["role"; "permissions"],
       Normal (Respond (permission_denied "contentEditing")))
  ∧ status (permission_denied "contentEditing") = 403
  ∧ ∀ c, ctx_role c ≠ "admin" → ctx_flag c contentEditing = Some false →
      completion (checkPermission "contentEditing" (request_of c))
      = Normal (Respond (permission_denied "contentEditing")).
Proof.
  split; [by vm_compute|].
  apply (missing_permissions_denied contentEditing
           (request_of Demo.bare_identity) (JStr "sub-admin"));
    reflexivity.
Defined.

(** ** The authentication gate *)

Lemma split_space_no_space s : no_space s = true → split_space s = [s].
Proof.
  induction s as [|c s IH]; simpl; [done|].
  intros [Hc Hs]%andb_prop. apply negb_true_iff in Hc. rewrite Hc.
  by rewrite (IH Hs).
Qed.

Lemma split_space_app a b :
  no_space a = true →
  split_space (a ++ String " " b) = a :: split_space b.
Proof.
  induction a as [|c a IH]; simpl; [done|].
  intros [Hc Ha]%andb_prop. apply negb_true_iff in Hc. rewrite Hc.
  by rewrite (IH Ha).
Qed.

Lemma second_field scheme tok :
  no_space scheme = true → no_space tok = true →
  split_space (scheme ++ String " " tok) !! 1%nat = Some tok.
Proof.
  intros Hs Ht. by rewrite (split_space_app _ _ Hs), (split_space_no_space _ Ht).
Qed.

Section gate.
Context `{!Externals}.

Lemma verifyToken_no_token req :
  or_else (candidate_token req) None = None →
  verifyToken req = M_ret (Respond (respond 401 "Authentication required")).
Proof.
  unfold verifyToken.
  by destruct (candidate_token req) as [[|c s]|].
Qed.

Lemma verifyToken_token req tok :
  candidate_token req = Some tok → tok ≠ "" →
  verifyToken req =
    M_ret (match jwt_verify tok with
           | Normal decoded => Next (set_user req decoded)
           | Throw _ => Respond (respond 401 "Invalid or expired token")
           end).
Proof.
  unfold verifyToken. intros -> Hne.
  destruct tok as [|c s]; [done|]. by destruct (jwt_verify _).
Qed.

Lemma verifyToken_respond req res :
  completion (verifyToken req) = Normal (Respond res) →
  res = respond 401 "Authentication required"
  ∨ res = respond 401 "Invalid or expired token".
Proof.
  unfold verifyToken.
  destruct (candidate_token req) as [[|c s]|]; simpl;
    try (intros [= <-]; by left).
  destruct (jwt_verify _); simpl; [done|]. intros [= <-]. by right.
Qed.

(** A refusal by the first middleware of a chain is the endpoint's
    answer, and the store is not touched. *)
Lemma app_refused e db req res :
  protected e = true →
  verifyToken req = M_ret (Respond res) →
  app e db req = (db, res).
Proof.
  intros He Hv. unfold app, route.
  destruct e; try discriminate He; simpl; unfold adminOnly; simpl;
    by rewrite Hv.
Qed.
End gate.

Lemma checkRole_respond role req res :
  completion (checkRole role req) = Normal (Respond res) →
  res = respond 401 "Authentication required"
  ∨ res = respond 403 "Access denied: Insufficient permissions".
Proof.
  unfold checkRole, user_prop, M_bind, M_ret, completion.
  destruct (truthy (user req)); simpl; [|intros [= <-]; by left].
  destruct (prop (user req) "role") as [r|]; simpl; [|done].
  destruct (strict_eq_str r role); simpl; [done|]. intros [= <-]. by right.
Qed.

Lemma checkPermission_respond permission req res :
  completion (checkPermission permission req) = Normal (Respond res) →
  res = respond 401 "Authentication required"
  ∨ res = permission_denied permission.
Proof.
  unfold checkPermission, user_prop, M_bind, M_ret, completion.
  destruct (truthy (user req)); simpl; [|intros [= <-]; by left].
  destruct (prop (user req) "role") as [r|]; simpl; [|done].
  destruct (strict_eq_str r "admin"); simpl; [done|].
  destruct (prop (user req) "permissions") as [ps|]; simpl; [|done].
  destruct (truthy ps); simpl; [|intros [= <-]; by right].
  destruct (prop ps permission) as [flag|]; simpl; [|done].
  destruct (truthy flag); simpl; [done|]. intros [= <-]. by right.
Qed.

(** C3, as the code has it: a failed authentication answers 401 with
    "Authentication required" or "Invalid or expired token"; a role or
    permission denial answers 403 with "Access denied: Insufficient
    permissions" or "Access denied: '<name>' permission required", where
    <name> is the permission the route declares.  The message of the one is
    never the message of the other. *)
Theorem failure_messages `{!Externals} (req1 req2 : Request)
    (res1 res2 : Response) (role permission : string) :
  completion (verifyToken req1) = Normal (Respond res1) →
  completion (checkRole role req2) = Normal (Respond res2)
  ∨ completion (checkPermission permission req2) = Normal (Respond res2) →
  status res2 = 403 →
  status res1 = 401
  ∧ (message_of res1 = JStr "Authentication required"
     ∨ message_of res1 = JStr "Invalid or expired token")
  ∧ (message_of res2 = JStr "Access denied: Insufficient permissions"
     ∨ message_of res2
       = JStr ("Access denied: '" ++ permission ++ "' permission required"))
  ∧ message_of res1 ≠ message_of res2.
Proof.
  intros H1 H2 H403.
  assert (res2 = respond 403 "Access denied: Insufficient permissions"
          ∨ res2 = permission_denied permission) as Hres2.
  { destruct H2 as [H2|H2].
    - apply checkRole_respond in H2 as [->| ->]; [done | by left].
    - apply checkPermission_respond in H2 as [->| ->]; [done | by right]. }
  apply verifyToken_respond in H1.
  destruct H1 as [-> | ->], Hres2 as [-> | ->];
    (split; [done|]); (split; [by (left + right)|]);
    (split; [by (left + right)|]); by simpl.
Qed.

Lemma failure_messages_witness :
  let req1 := mkRequest None None JUndefined "" empty_body in
  let req2 := request_of Demo.sub_identity in
  let res1 := respond 401 "Authentication required" in
  let res2 := permission_denied "viewData" in
  (completion (verifyToken req1) = Normal (Respond res1)
   ∧ (completion (checkRole "admin" req2) = Normal (Respond res2)
      ∨ completion (checkPermission "viewData" req2) = Normal (Respond res2))
   ∧ status res2 = 403)
  ∧ status res1 = 401
  ∧ (message_of res1 = JStr "Authentication required"
     ∨ message_of res1 = JStr "Invalid or expired token")
  ∧ (message_of res2 = JStr "Access denied: Insufficient permissions"
     ∨ message_of res2 = JStr "Access denied: 'viewData' permission required")
  ∧ message_of res1 ≠ message_of res2.
Proof.
  split; [split; [reflexivity | split; [right; reflexivity | reflexivity]]|].
  apply (failure_messages (mkRequest None None JUndefined "" empty_body)
           (request_of Demo.sub_identity) _ _ "admin" "viewData");
    [reflexivity | right; reflexivity | reflexivity].
Defined.

(** C3 fails as stated: a request without a token and a sub-admin's request
    to a route whose permission it lacks are answered with different
    messages. *)
Lemma failure_messages_differ :
  let req1 := mkRequest None None JUndefined "" empty_body in
  let req2 := request_of Demo.sub_identity in
  let res1 := respond 401 "Authentication required" in
  let res2 := respond 403 "Access denied: 'viewData' permission required" in
  completion (verifyToken req1) = Normal (Respond res1)
  ∧ completion (checkPermission "viewData" req2) = Normal (Respond res2)
  ∧ message_of res1 ≠ message_of res2.
Proof. split; [reflexivity | split; [reflexivity | by vm_compute]]. Qed.

Lemma append_empty s : s ++ "" = s.
Proof.
  induction s as [|c s IH]; [done|].
  change (String c (s ++ "") = String c s). by rewrite IH.
Qed.

(** A header has one field, or a first field, a second one and a rest that
    is empty or starts with the next space. *)
Lemma header_fields h :
  no_space h = true
  ∨ ∃ scheme tok rest,
      h = scheme ++ " " ++ tok ++ rest
      ∧ no_space scheme = true ∧ no_space tok = true
      ∧ (rest = "" ∨ ∃ r, rest = " " ++ r).
Proof.
  assert (∀ s, no_space s = true
               ∨ ∃ a b, s = a ++ String " " b ∧ no_space a = true) as Hfirst.
  { induction s as [|c s IH]; [by left|].
    destruct (Ascii.eqb_spec c " "%char) as [->|Hc].
    - right. by exists "", s.
    - apply Ascii.eqb_neq in Hc.
      destruct IH as [Hs|(a' & b' & -> & Ha)].
      + left. simpl. by rewrite Hc, Hs.
      + right. exists (String c a'), b'. simpl. by rewrite Hc, Ha. }
  destruct (Hfirst h) as [Hh|(scheme & b & -> & Hs)]; [by left|]. right.
  destruct (Hfirst b) as [Hb|(tok & r & -> & Ht)].
  - exists scheme, b, "". rewrite append_empty. repeat split; try done. by left.
  - exists scheme, tok, (String " " r). repeat split; try done. right. by exists r.
Qed.

Lemma second_of_fields scheme tok rest :
  no_space scheme = true → no_space tok = true →
  rest = "" ∨ (∃ r, rest = " " ++ r) →
  split_space (scheme ++ String " " (tok ++ rest)) !! 1%nat = Some tok.
Proof.
  intros Hs Ht [->|[r ->]]; rewrite (split_space_app _ _ Hs).
  - by rewrite append_empty, (split_space_no_space _ Ht).
  - change (tok ++ " " ++ r) with (tok ++ String " " r).
    by rewrite (split_space_app _ _ Ht).
Qed.

(** C6, as the code has it: the candidate token is the second
    space-separated field of the Authorization header, whatever the scheme
    word in front of it and whatever follows it (so [Bearer <token>] yields
    <token>), when that field is there and is not empty, and the [token]
    cookie otherwise: with no header, with a header of one field, and with
    an empty second field.  Every header is of one of these forms.  Without
    a candidate every protected endpoint answers 401 "Authentication
    required" and leaves the store as it is, whatever the store holds; a
    candidate that fails to decode is answered with 401 as well. *)
Theorem authentication_gate `{!Externals} (req : Request) :
  (∀ scheme tok rest,
      authorization req = Some (scheme ++ " " ++ tok ++ rest) →
      no_space scheme = true → no_space tok = true →
      rest = "" ∨ (∃ r, rest = " " ++ r) →
      candidate_token req
      = if String.eqb tok "" then cookie_token req else Some tok)
  ∧ (∀ h, authorization req = Some h → no_space h = true →
          candidate_token req = cookie_token req)
  ∧ (authorization req = None → candidate_token req = cookie_token req)
  ∧ (∀ h, no_space h = true
          ∨ ∃ scheme tok rest,
              h = scheme ++ " " ++ tok ++ rest
              ∧ no_space scheme = true ∧ no_space tok = true
              ∧ (rest = "" ∨ ∃ r, rest = " " ++ r))
  ∧ (or_else (h ← authorization req; split_space h !! 1%nat) None = None →
     candidate_token req = cookie_token req)
  ∧ (or_else (candidate_token req) None = None →
     ∀ e db, protected e = true →
       app e db req = (db, respond 401 "Authentication required"))
  ∧ (∀ tok err,
      candidate_token req = Some tok → tok ≠ "" →
      jwt_verify tok = Throw err →
      ∀ e db, protected e = true →
        app e db req = (db, respond 401 "Invalid or expired token")).
Proof.
  split; [|split; [|split; [|split; [|split; [|split]]]]].
  - intros scheme tok rest Hh Hs Ht Hrest. unfold candidate_token. rewrite Hh.
    change (or_else (split_space (scheme ++ String " " (tok ++ rest)) !! 1%nat)
                    (cookie_token req)
            = if String.eqb tok "" then cookie_token req else Some tok).
    by rewrite (second_of_fields scheme tok rest Hs Ht Hrest).
  - intros h Hh Hn. unfold candidate_token. rewrite Hh. simpl.
    by rewrite (split_space_no_space _ Hn).
  - intros Hh. unfold candidate_token. by rewrite Hh.
  - apply header_fields.
  - unfold candidate_token.
    destruct (h ← authorization req; split_space h !! 1%nat) as [[|c s]|];
      simpl; done.
  - intros Hnone e db He. apply app_refused; [done|].
    by apply verifyToken_no_token.
  - intros tok err Htok Hne Herr e db He. apply app_refused; [done|].
    rewrite (verifyToken_token req tok Htok Hne). by rewrite Herr.
Qed.

Lemma authentication_gate_witness :
  let req := mkRequest (Some "Bearer admin.jwt") (Some "sub-admin.jwt")
                       JUndefined "" empty_body in
  let more := mkRequest (Some "Bearer admin.jwt and more") (Some "sub-admin.jwt")
                        JUndefined "" empty_body in
  let single := mkRequest (Some "Bearer") (Some "sub-admin.jwt")
                          JUndefined "" empty_body in
  let bad := mkRequest (Some "Bearer forged") None JUndefined "" empty_body in
  candidate_token req = Some "admin.jwt"
  ∧ candidate_token more = Some "admin.jwt"
  ∧ candidate_token single = Some "sub-admin.jwt"
  ∧ app (features dashboard) ∅ bad
    = (∅, respond 401 "Invalid or expired token").
Proof.
  intros req more single bad. split; [|split; [|split]].
  - refine (proj1 (authentication_gate req) "Bearer" "admin.jwt" "" _ _ _ _);
      [reflexivity | reflexivity | reflexivity | by left].
  - refine (proj1 (authentication_gate more) "Bearer" "admin.jwt" " and more"
              _ _ _ _);
      [reflexivity | reflexivity | reflexivity | right; by exists "and more"].
  - refine (proj1 (proj2 (authentication_gate single)) "Bearer" _ _);
      reflexivity.
  - refine (proj2 (proj2 (proj2 (proj2 (proj2 (proj2
              (authentication_gate bad)))))) "forged" "jwt malformed"
              _ _ _ (features dashboard) ∅ _);
      [reflexivity | by vm_compute | reflexivity | reflexivity].
Defined.

(** C6 fails as stated: with a Basic Authorization header and a valid
    token in the cookie there is no Bearer header, yet the candidate is
    taken from the header and the request is refused. *)
Lemma non_bearer_header_shadows_cookie :
  let req := mkRequest (Some "Basic dXNlcg==") (Some "admin.jwt")
                       JUndefined "" empty_body in
  jwt_verify "admin.jwt" = Normal (identity_to_js Demo.admin_identity)
  ∧ candidate_token req = Some "dXNlcg=="
  ∧ completion (verifyToken req)
    = Normal (Respond (respond 401 "Invalid or expired token")).
Proof. repeat split. Qed.

(** ** The account lifecycle *)

Lemma findOne_is_Some f (db : gmap string User) i u :
  db !! i = Some u → f (i, u) = true → is_Some (findOne f db).
Proof.
  intros Hu Hf. destruct (findOne f db) as [d|] eqn:Hd; [by eexists|].
  rewrite findOne_None in Hd. by rewrite (Hd i u Hu) in Hf.
Qed.

Lemma email_taken_false (db : gmap string User) self e :
  (∀ i u, db !! i = Some u → email u ≠ e) → email_taken db self e = false.
Proof.
  intros Hall. unfold email_taken.
  destruct (existsb _ _) eqn:Hex; [|done].
  apply existsb_exists in Hex as ([i u] & Hin & Hb).
  apply list_elem_of_In, elem_of_map_to_list in Hin.
  apply andb_prop in Hb as [He%String.eqb_eq _]. by destruct (Hall i u Hin).
Qed.

Lemma required_Some path s : s ≠ "" → required path (Some s) = Normal s.
Proof. intros Hne. simpl. by apply String.eqb_neq in Hne as ->. Qed.

Lemma required_Normal path v s : required path v = Normal s → v = Some s.
Proof.
  destruct v as [s'|]; simpl; [|done].
  destruct (String.eqb s' ""); by intros [= ->].
Qed.

Section lifecycle.
Context `{!Externals}.

(** The two refusals of the handler are the same answer: whether no record
    has the supplied email, or the comparison of the supplied secret with
    the records that have it returns [false], login answers 401 with the
    message "Invalid credentials" and leaves the store alone. *)
Theorem login_failures_indistinguishable (db : gmap string User)
    (unknown mismatch : Request) (e : string) :
  (∀ i u, db !! i = Some u → Some (email u) ≠ b_email (body unknown)) →
  b_email (body mismatch) = Some e →
  (∃ i u, db !! i = Some u ∧ email u = e) →
  (∀ i u, db !! i = Some u → email u = e →
     comparePassword u (b_password (body mismatch)) = Normal false) →
  login db unknown = (db, respond 401 "Invalid credentials")
  ∧ login db mismatch = (db, respond 401 "Invalid credentials").
Proof.
  intros Hunknown He (i & u & Hu & Hue) Hcmp. split; unfold login.
  - assert (findOne (by_email (b_email (body unknown))) db = None) as ->; [|done].
    apply findOne_None. intros j v Hv. unfold by_email. simpl.
    destruct (b_email (body unknown)) as [s|] eqn:Hs; [|done].
    apply String.eqb_neq. intros <-. by apply (Hunknown j v Hv).
  - rewrite He.
    destruct (findOne_is_Some (by_email (Some e)) db i u Hu) as [d Hd].
    { simpl. by apply String.eqb_eq. }
    rewrite Hd. apply findOne_Some in Hd as [Hd Hf].
    simpl in Hf. apply String.eqb_eq in Hf.
    by rewrite (Hcmp d.1 d.2 Hd Hf).
Qed.

Lemma save_Normal db d n e pw ps :
  d_name d = Some n → n ≠ "" →
  d_email d = Some e → e ≠ "" →
  d_password d = Some pw → pw ≠ "" →
  (∀ i u, db !! i = Some u → email u ≠ e) →
  cast_permissions (d_permissions d) = Normal ps →
  save db d
  = Normal (<[newObjectId (dom db) := mkUser n e (derive_secret pw) (d_role d) ps]> db,
            (newObjectId (dom db), mkUser n e (derive_secret pw) (d_role d) ps)).
Proof.
  intros Hdn Hn Hde He Hdp Hpw Hfree Hps. unfold save.
  rewrite Hps, Hdn, Hde, Hdp.
  rewrite !required_Some by done. simpl.
  unfold unique_email. by rewrite email_taken_false.
Qed.

Lemma save_inv db d db' doc :
  save db d = Normal (db', doc) →
  db' = <[doc.1 := doc.2]> db
  ∧ db !! doc.1 = None
  ∧ role doc.2 = d_role d
  ∧ cast_permissions (d_permissions d) = Normal (permissions doc.2).
Proof.
  unfold save.
  destruct (cast_permissions (d_permissions d)) as [ps|]; simpl; [|done].
  destruct (required "name" _) as [n|]; simpl; [|done].
  destruct (required "email" _) as [e|]; simpl; [|done].
  destruct (required "password" _) as [pw|]; simpl; [|done].
  destruct (unique_email db None e) as [e'|]; simpl; [|done].
  intros [= <- <-]. simpl. repeat split.
  apply not_elem_of_dom, newObjectId_fresh.
Qed.

(** C5, as the code has it: when a record with role admin exists the
    signup answers 400 and the store is unchanged; when none exists and
    the request carries a non-empty name, email and secret, the email not
    being in use, a record with role admin and the four flags true is
    added under a new identifier, and the answer is 201 with a message and
    a token issued for that record; the body has no user member. *)
Theorem admin_signup_spec (db : gmap string User) (req : Request) :
  ((∃ i u, db !! i = Some u ∧ role u = admin) →
   admin_signup db req = (db, respond 400 "Admin account already exists"))
  ∧ (∀ n e pw,
      (∀ i u, db !! i = Some u → role u ≠ admin) →
      b_name (body req) = Some n → n ≠ "" →
      b_email (body req) = Some e → e ≠ "" →
      b_password (body req) = Some pw → pw ≠ "" →
      (∀ i u, db !! i = Some u → email u ≠ e) →
      let id := newObjectId (dom db) in
      let u := mkUser n e (derive_secret pw) admin
                 [("dashboard", true); ("collegeManagement", true);
                  ("contentEditing", true); ("viewData", true)] in
      db !! id = None
      ∧ admin_signup db req
        = (<[id := u]> db,
           mkResponse 201
             (JObj [("message", JStr "Admin account created successfully");
                    ("token", JStr (generateToken (id, u)))]) [])).
Proof.
  split.
  - intros (i & u & Hu & Hr). unfold admin_signup.
    destruct (findOne_is_Some (by_role admin) db i u Hu) as [d ->]; [|done].
    unfold by_role. simpl. by rewrite Hr.
  - intros n e pw Hnone Hn Hn' He He' Hpw Hpw' Hfree id u.
    split; [apply not_elem_of_dom, newObjectId_fresh|].
    unfold admin_signup.
    assert (findOne (by_role admin) db = None) as ->.
    { apply findOne_None. intros i v Hv. unfold by_role. simpl.
      rewrite is_role_eq. apply bool_decide_eq_false. by apply (Hnone i v). }
    by erewrite save_Normal.
Qed.
End lifecycle.

Lemma login_failures_indistinguishable_witness :
  let unknown := Examples.post (mkBody None (Some "nobody@example.com")
                                       (Some "Admin@123") JUndefined) in
  let mismatch := Examples.post (mkBody None (Some "admin@example.com")
                                        (Some "admin@123") JUndefined) in
  login Examples.db1 unknown = (Examples.db1, respond 401 "Invalid credentials")
  ∧ login Examples.db1 mismatch
    = (Examples.db1, respond 401 "Invalid credentials").
Proof.
  apply (login_failures_indistinguishable Examples.db1 _ _ "admin@example.com").
  - intros i u Hu. unfold Examples.db1 in Hu.
    apply lookup_singleton_Some in Hu as [<- <-]. by vm_compute.
  - reflexivity.
  - exists "64b7f0c2a1d34e5f6a7b8c01", Examples.root. split; reflexivity.
  - intros i u Hu _. unfold Examples.db1 in Hu.
    apply lookup_singleton_Some in Hu as [<- <-]. reflexivity.
Defined.

(** C4 does not hold of the code: a login whose email is known and for
    whose secret the comparison raises, as it does when no secret is sent,
    is answered from the handler's catch with 500 and the error's message,
    while the same login with an unknown email is answered 401 "Invalid
    credentials"; the two differ in status and message, which tells a
    caller whether the email is registered. *)
Theorem login_without_secret_leaks `{!Externals} (db : gmap string User)
    (known unknown : Request) (i : string) (u : User) (err : string) :
  db !! i = Some u →
  b_email (body known) = Some (email u) →
  (∀ j v, db !! j = Some v → email v = email u →
     comparePassword v (b_password (body known)) = Throw err) →
  (∀ j v, db !! j = Some v → Some (email v) ≠ b_email (body unknown)) →
  login db known = (db, respond 500 err)
  ∧ login db unknown = (db, respond 401 "Invalid credentials")
  ∧ status (login db known).2 ≠ status (login db unknown).2.
Proof.
  intros Hu He Hraise Hunknown.
  assert (login db known = (db, respond 500 err)) as Hk.
  { unfold login. rewrite He.
    destruct (findOne_is_Some (by_email (Some (email u))) db i u Hu) as [d Hd].
    { simpl. apply String.eqb_refl. }
    rewrite Hd. apply findOne_Some in Hd as [Hd Hf].
    simpl in Hf. apply String.eqb_eq in Hf.
    by rewrite (Hraise d.1 d.2 Hd Hf). }
  assert (login db unknown = (db, respond 401 "Invalid credentials")) as Hn.
  { unfold login.
    assert (findOne (by_email (b_email (body unknown))) db = None) as ->; [|done].
    apply findOne_None. intros j v Hv. unfold by_email. simpl.
    destruct (b_email (body unknown)) as [s|] eqn:Hs; [|done].
    apply String.eqb_neq. intros <-. by apply (Hunknown j v Hv). }
  rewrite Hk, Hn. by repeat split.
Qed.

Lemma login_without_secret_leaks_witness :
  let known := Examples.post (mkBody None (Some "admin@example.com")
                                     None JUndefined) in
  let unknown := Examples.post (mkBody None (Some "nobody@example.com")
                                       None JUndefined) in
  login Examples.db1 known
  = (Examples.db1, respond 500 "data and hash arguments required")
  ∧ login Examples.db1 unknown
    = (Examples.db1, respond 401 "Invalid credentials")
  ∧ status (login Examples.db1 known).2 ≠ status (login Examples.db1 unknown).2.
Proof.
  intros known unknown.
  apply (login_without_secret_leaks Examples.db1 known unknown
           "64b7f0c2a1d34e5f6a7b8c01" Examples.root
           "data and hash arguments required").
  - by vm_compute.
  - reflexivity.
  - intros j v Hv _. reflexivity.
  - intros j v Hv. unfold Examples.db1 in Hv.
    apply lookup_singleton_Some in Hv as [_ <-]. by vm_compute.
Defined.

Lemma admin_signup_spec_witness :
  let req := Examples.post (mkBody (Some "Admin") (Some "admin@example.com")
                                   (Some "Admin@123") JUndefined) in
  admin_signup Examples.db1 req
  = (Examples.db1, respond 400 "Admin account already exists")
  ∧ (∅ : gmap string User) !! newObjectId (dom (∅ : gmap string User)) = None
  ∧ admin_signup ∅ req
    = (<[newObjectId (dom (∅ : gmap string User)) := Examples.root]> ∅,
       mkResponse 201
         (JObj [("message", JStr "Admin account created successfully");
                ("token",
                 JStr (generateToken (newObjectId (dom (∅ : gmap string User)),
                                      Examples.root)))]) []).
Proof.
  split.
  - apply (proj1 (admin_signup_spec Examples.db1 _)).
    exists "64b7f0c2a1d34e5f6a7b8c01", Examples.root. split; reflexivity.
  - refine (proj2 (admin_signup_spec ∅
                     (Examples.post (mkBody (Some "Admin") (Some "admin@example.com")
                                            (Some "Admin@123") JUndefined)))
              "Admin" "admin@example.com" "Admin@123" _ _ _ _ _ _ _ _);
      try reflexivity; try (by vm_compute);
      intros i u Hu; by rewrite lookup_empty in Hu.
Defined.

(** C5 fails as stated: the first signup on an empty store is answered with
    a message and a token only; the new user is not part of the answer. *)
Lemma admin_signup_returns_no_user :
  let req := Examples.post (mkBody (Some "Admin") (Some "admin@example.com")
                                   (Some "Admin@123") JUndefined) in
  (admin_signup ∅ req).2
  = mkResponse 201
      (JObj [("message", JStr "Admin account created successfully");
             ("token", JStr "admin.jwt")]) []
  ∧ own_key (json (admin_signup ∅ req).2) "user" = None.
Proof. by vm_compute. Qed.

Lemma cast_flag_spec o p b :
  cast_flag o p = Normal b →
  (assoc (permission_name p) o = None → b = false)
  ∧ (∀ b', assoc (permission_name p) o = Some (JBool b') → b = b').
Proof.
  unfold cast_flag.
  destruct (assoc (permission_name p) o) as [v|];
    [|intros [= <-]; by split].
  destruct (cast_boolean v) as [c|] eqn:Hc; [|done].
  intros [= <-]. split; [done|]. intros b' [= ->]. simpl in Hc. congruence.
Qed.

Lemma cast_flag_value o p b v :
  cast_flag o p = Normal b →
  assoc (permission_name p) o = Some v → cast_boolean v = Some b.
Proof.
  unfold cast_flag. intros Hb Hv. rewrite Hv in Hb.
  destruct (cast_boolean v); congruence.
Qed.

Lemma cast_flag_total o p :
  (∀ v, assoc (permission_name p) o = Some v → is_Some (cast_boolean v)) →
  ∃ b, cast_flag o p = Normal b.
Proof.
  unfold cast_flag. intros Hok.
  destruct (assoc (permission_name p) o) as [v|]; [|by eexists].
  destruct (Hok v eq_refl) as [b ->]. by eexists.
Qed.

(** What the schema stores has the four keys, each with the value that was
    supplied for it, or [false] when the key was left out. *)
Lemma cast_permissions_spec v ps :
  cast_permissions v = Normal ps →
  ∀ p, ∃ b, assoc (permission_name p) ps = Some b
            ∧ (own_key v (permission_name p) = None → b = false)
            ∧ (∀ b', own_key v (permission_name p) = Some (JBool b') → b = b').
Proof.
  destruct v as [| |b|n|s|l|o]; simpl; try done.
  destruct (cast_flag o dashboard) as [d|] eqn:Hd; simpl; [|done].
  destruct (cast_flag o collegeManagement) as [c|] eqn:Hc; simpl; [|done].
  destruct (cast_flag o contentEditing) as [e|] eqn:He; simpl; [|done].
  destruct (cast_flag o viewData) as [w|] eqn:Hw; simpl; [|done].
  intros [= <-] p.
  destruct p; simpl; eexists; (split; [done|]);
    eauto using cast_flag_spec.
  - by apply (cast_flag_spec o dashboard).
  - by apply (cast_flag_spec o collegeManagement).
  - by apply (cast_flag_spec o contentEditing).
  - by apply (cast_flag_spec o viewData).
Qed.

Section sub_admins.
Context `{!Externals}.

Lemma id_role_filter_ok id r :
  isObjectId id = true → id_role_filter id r = Normal (by_id_role id r).
Proof. intros Hid. unfold id_role_filter, castObjectId. by rewrite Hid. Qed.



Lemma findOne_sub_admin_Some (db : gmap string User) id u :
  db !! id = Some u → role u = sub_admin →
  findOne (by_id_role id sub_admin) db = Some (id, u).
Proof.
  intros Hu Hr. rewrite findOne_by_id_role, Hu. simpl. by rewrite Hr.
Qed.

Lemma apply_set_frame db d b u' :
  apply_set db d b = Normal u' →
  role u' = role d.2 ∧ password u' = password d.2
  ∧ name u' = default (name d.2) (b_name b)
  ∧ email u' = default (email d.2) (b_email b)
  ∧ (b_permissions b = JUndefined → permissions u' = permissions d.2)
  ∧ (b_permissions b ≠ JUndefined →
     cast_permissions (b_permissions b) = Normal (permissions u')).
Proof.
  unfold apply_set.
  destruct (match b_name b with
            | Some s => required "name" (Some s)
            | None => Normal (name d.2)
            end) as [n|] eqn:Hn; [|done].
  destruct (match b_email b with
            | Some s => _
            | None => Normal (email d.2)
            end) as [e|] eqn:He; [|done].
  destruct (match b_permissions b with
            | JUndefined => Normal (permissions d.2)
            | _ => _
            end) as [ps|] eqn:Hps; [|done].
  intros [= <-]. cbn [role password name email permissions].
  split; [done|]. split; [done|]. split; [|split; [|split]].
  - destruct (b_name b) as [s|]; [|by simplify_eq/=].
    by apply required_Normal in Hn as [= ->].
  - destruct (b_email b) as [s|]; [|by simplify_eq/=].
    destruct (required "email" (Some s)) as [s'|] eqn:Hs; [|done].
    apply required_Normal in Hs as [= ->].
    cbn in He. unfold unique_email in He.
    destruct (email_taken _ _ _); by simplify_eq/=.
  - intros Hu. rewrite Hu in Hps. by simplify_eq.
  - intros Hu. by destruct (b_permissions b).
Qed.


End sub_admins.

Section creation.
Context `{!Externals}.

(** A record that appears in the store of a creation handler is the one
    that [save] has written. *)
Lemma created_by_save (db db' : gmap string User) d
    (k : Store * Doc → Response) res id u :
  try_catch db (r ← save db d; mret (r.1, k r)) = (db', res) →
  db !! id = None → db' !! id = Some u →
  save db d = Normal (db', (id, u)).
Proof.
  destruct (save db d) as [[db1 doc]|err] eqn:Hsave; simpl.
  - intros [= <- <-] Hold Hnew.
    destruct (save_inv _ _ _ _ Hsave) as (-> & _ & _ & _).
    destruct (decide (doc.1 = id)) as [<-|Hne].
    + rewrite lookup_insert_eq in Hnew. simplify_eq. by destruct doc.
    + rewrite lookup_insert_ne in Hnew by done. congruence.
  - intros [= <- <-] Hold Hnew. congruence.
Qed.

Lemma cast_permissions_value v ps p w b :
  cast_permissions v = Normal ps →
  own_key v (permission_name p) = Some w →
  assoc (permission_name p) ps = Some b →
  cast_boolean w = Some b.
Proof.
  destruct v as [| |c|n|s|l|o]; simpl; try done.
  destruct (cast_flag o dashboard) as [d1|] eqn:H1; simpl; [|done].
  destruct (cast_flag o collegeManagement) as [d2|] eqn:H2; simpl; [|done].
  destruct (cast_flag o contentEditing) as [d3|] eqn:H3; simpl; [|done].
  destruct (cast_flag o viewData) as [d4|] eqn:H4; simpl; [|done].
  intros [= <-] Hw Hb.
  destruct p; simpl in Hb; injection Hb as <-;
    eauto using cast_flag_value.
Qed.

Lemma cast_permissions_total v :
  permissions_accepted v →
  ∃ ps, cast_permissions (if truthy v then v else JObj []) = Normal ps.
Proof.
  intros [[Hfalsy|[o ->]] Hok].
  - rewrite Hfalsy. by eexists.
  - simpl.
    destruct (cast_flag_total o dashboard) as [d1 ->]; [apply Hok|].
    destruct (cast_flag_total o collegeManagement) as [d2 ->]; [apply Hok|].
    destruct (cast_flag_total o contentEditing) as [d3 ->]; [apply Hok|].
    destruct (cast_flag_total o viewData) as [d4 ->]; [apply Hok|].
    by eexists.
Qed.

(** C9: a record created by the admin signup or by the sub-admin creation
    has all four permission keys.  In a sub-admin's record a key that the
    caller's permissions input does not have is [false], whatever that
    input is, and a key that it has holds the boolean the supplied value
    stands for; in the admin's record all four are [true].  The shape of the
    input does not stand in the way of a creation: with a non-empty name,
    email and secret and an unused email, every input that is falsy or an
    object whose flags stand for booleans is answered 201. *)
Theorem created_permissions_complete (db : gmap string User) (req : Request) :
  (∀ db' res id u,
     admin_signup db req = (db', res) ∨ createSubAdmin db req = (db', res) →
     db !! id = None → db' !! id = Some u →
     (∀ p, is_Some (assoc (permission_name p) (permissions u)))
     ∧ (role u = sub_admin →
        ∀ p, own_key (b_permissions (body req)) (permission_name p) = None →
             assoc (permission_name p) (permissions u) = Some false)
     ∧ (role u = admin →
        ∀ p, assoc (permission_name p) (permissions u) = Some true)
     ∧ (role u = sub_admin →
        ∀ p w b, own_key (b_permissions (body req)) (permission_name p) = Some w →
                 assoc (permission_name p) (permissions u) = Some b →
                 cast_boolean w = Some b))
  ∧ (∀ n e pw,
       b_name (body req) = Some n → n ≠ "" →
       b_email (body req) = Some e → e ≠ "" →
       b_password (body req) = Some pw → pw ≠ "" →
       (∀ i u, db !! i = Some u → email u ≠ e) →
       permissions_accepted (b_permissions (body req)) →
       status (createSubAdmin db req).2 = 201
       ∧ ∃ u, (createSubAdmin db req).1 !! newObjectId (dom db) = Some u
              ∧ db !! newObjectId (dom db) = None).
Proof.
  split.
  - intros db' res id u [Hrun|Hrun] Hold Hnew.
    + unfold admin_signup in Hrun.
      destruct (findOne (by_role admin) db); [simplify_eq/=; congruence|].
      apply (created_by_save _ _ _ (λ r, mkResponse 201 _ [])) with (id := id) (u := u)
        in Hrun; [|done..].
      apply save_inv in Hrun as (_ & _ & Hrole & Hcast). simpl in *.
      injection Hcast as <-.
      split; [intros []; by eexists|].
      split; [congruence|]. split; [by intros _ []|]. congruence.
    + unfold createSubAdmin in Hrun. cbv zeta in Hrun.
      destruct (findOne (by_email _) db); [simplify_eq/=; congruence|].
      apply (created_by_save _ _ _ (λ r, mkResponse 201 _ [])) with (id := id) (u := u)
        in Hrun; [|done..].
      apply save_inv in Hrun as (_ & _ & Hrole & Hcast). simpl in *.
      pose proof (cast_permissions_spec _ _ Hcast) as Hspec.
      split; [intros p; destruct (Hspec p) as (b & -> & _); by eexists|].
      split; [|split; [congruence|]].
      * intros _ p Hunset. destruct (Hspec p) as (b & -> & Hdef & _).
        f_equal. apply Hdef.
        destruct (truthy (b_permissions (body req))); [done|].
        by destruct p.
      * intros _ p w b Hw Hb.
        apply (cast_permissions_value _ _ p w b Hcast); [|done].
        destruct (truthy (b_permissions (body req))) eqn:Htr; [done|].
        destruct (b_permissions (body req)) as [| |c|z|s|l|o];
          simpl in Hw, Htr; congruence.
  - intros n e pw Hn Hn' He He' Hpw Hpw' Hfree Hacc.
    destruct (cast_permissions_total _ Hacc) as [ps Hps].
    unfold createSubAdmin. cbv zeta.
    assert (findOne (by_email (b_email (body req))) db = None) as ->.
    { apply findOne_None. intros i v Hv. rewrite He. simpl.
      apply String.eqb_neq. by apply (Hfree i v). }
    erewrite save_Normal by done. simpl. split; [done|].
    eexists. split; [apply lookup_insert_eq|].
    apply not_elem_of_dom, newObjectId_fresh.
Qed.
End creation.

Lemma created_permissions_complete_witness :
  let req := Examples.post
               (mkBody (Some "Sub One") (Some "sub1@example.com")
                       (Some "Sub@123")
                       (JObj [("dashboard", JStr "true"); ("viewData", JNum 0)])) in
  let odd := Examples.post
               (mkBody (Some "Sub One") (Some "sub1@example.com")
                       (Some "Sub@123")
                       (JObj [("dashboard", JStr "yes"); ("viewData", JNull);
                              ("unknown", JNum 7)])) in
  let u := Examples.sub1 in
  let id := newObjectId (dom Examples.db1) in
  let res := mkResponse 201
               (JObj [("message", JStr "Sub-admin created successfully");
                      ("subAdmin",
                       JObj [("id", JStr id); ("name", JStr "Sub One");
                             ("email", JStr "sub1@example.com");
                             ("permissions",
                              JObj [("dashboard", JBool true);
                                    ("collegeManagement", JBool false);
                                    ("contentEditing", JBool false);
                                    ("viewData", JBool false)])])]) [] in
  createSubAdmin Examples.db1 req = (<[id := u]> Examples.db1, res)
  ∧ ((∀ p, is_Some (assoc (permission_name p) (permissions u)))
     ∧ (role u = sub_admin →
        ∀ p, own_key (b_permissions (body req)) (permission_name p) = None →
             assoc (permission_name p) (permissions u) = Some false)
     ∧ (role u = admin →
        ∀ p, assoc (permission_name p) (permissions u) = Some true)
     ∧ (role u = sub_admin →
        ∀ p w b, own_key (b_permissions (body req)) (permission_name p) = Some w →
                 assoc (permission_name p) (permissions u) = Some b →
                 cast_boolean w = Some b))
  ∧ status (createSubAdmin Examples.db1 odd).2 = 201
  ∧ ∃ v, (createSubAdmin Examples.db1 odd).1 !! newObjectId (dom Examples.db1)
         = Some v
         ∧ Examples.db1 !! newObjectId (dom Examples.db1) = None.
Proof.
  intros req odd u id res.
  assert (createSubAdmin Examples.db1 req = (<[id := u]> Examples.db1, res))
    as Hrun by (by vm_compute).
  split; [exact Hrun|]. split.
  - apply (proj1 (created_permissions_complete Examples.db1 req)
             (<[id := u]> Examples.db1) res id u);
      [right; exact Hrun | by vm_compute | by vm_compute].
  - clear Hrun.
    refine (proj2 (created_permissions_complete Examples.db1 odd)
              "Sub One" "sub1@example.com" "Sub@123" _ _ _ _ _ _ _ _);
      [reflexivity | by vm_compute | reflexivity | by vm_compute
      | reflexivity | by vm_compute | | ].
    + intros i v Hv. unfold Examples.db1 in Hv.
      apply lookup_singleton_Some in Hv as [_ <-]. by vm_compute.
    + split; [right; by eexists|].
      intros p w Hw. destruct p; simpl in Hw; try discriminate Hw;
        injection Hw as <-; by eexists.
Defined.





(** ** The application, run *)

(** A sub-admin whose token carries [dashboard] only reaches the dashboard
    and is refused the colleges, by header or by cookie. *)
Example sub_admin_features :
  let by_header := mkRequest (Some "Bearer sub-admin.jwt") None JUndefined ""
                             empty_body in
  let by_cookie := mkRequest None (Some "sub-admin.jwt") JUndefined ""
                             empty_body in
  status (app (features dashboard) Examples.db2 by_header).2 = 200
  ∧ app (features collegeManagement) Examples.db2 by_cookie
    = (Examples.db2,
       respond 403 "Access denied: 'collegeManagement' permission required")
  ∧ app DELETE_admin_sub_admin Examples.db2 by_header
    = (Examples.db2, respond 403 "Access denied: Insufficient permissions").
Proof. by vm_compute. Qed.

(** The admin signs up on an empty store, logs in, and creates a sub-admin
    whose unset flags are false. *)
Example bootstrap_then_create :
  let signup := Examples.post (mkBody (Some "Admin") (Some "admin@example.com")
                                      (Some "Admin@123") JUndefined) in
  let db := (app POST_auth_admin_signup ∅ signup).1 in
  let create := mkRequest (Some "Bearer admin.jwt") None JUndefined ""
                  (mkBody (Some "Sub One") (Some "sub1@example.com")
                          (Some "Sub@123") (JObj [("dashboard", JBool true)])) in
  let db' := (app POST_admin_sub_admin db create).1 in
  status (app POST_auth_login db signup).2 = 200
  ∧ status (app POST_auth_admin_signup db signup).2 = 400
  ∧ ((λ d : Doc, permissions d.2) <$> find (by_role sub_admin) db')
    = [[("dashboard", true); ("collegeManagement", false);
        ("contentEditing", false); ("viewData", false)]].
Proof. by vm_compute. Qed.

(** The check tests the flag for truthiness: on a decoded value whose flag
    is not a boolean, which no issued token carries, a non-empty string
    passes like [true]. *)
Remark checkPermission_truthy_flag :
  let req := mkRequest None None
               (JObj [("role", JStr "sub-admin");
                      ("permissions", JObj [("viewData", JStr "no")])])
               "" empty_body in
  completion (checkPermission "viewData" req) = Normal (Next req).
Proof. reflexivity. Qed.

(** * Further properties of the middleware and the routes *)

(** ** The role check and the token codec *)

Lemma checkRole_carries (c : IdentityContext) (required_role : string)
    (req : Request) :
  carries (user req) c →
  checkRole required_role req
  = (["role"],
     Normal (if bool_decide (ctx_role c = required_role) then Next req
             else Respond (respond 403 "Access denied: Insufficient permissions"))).
Proof.
  intros Hc. unfold checkRole, user_prop, M_bind, M_ret.
  rewrite (carries_role _ _ Hc).
  destruct Hc as (claims & -> & _). simpl.
  destruct (String.eqb_spec (ctx_role c) required_role) as [Heq|Hne]; simpl.
  - by rewrite bool_decide_eq_true_2.
  - by rewrite bool_decide_eq_false_2.
Qed.

Lemma checkPermission_carries (c : IdentityContext) (permission : string)
    (req : Request) :
  carries (user req) c →
  completion (checkPermission permission req)
  = Normal (if bool_decide (ctx_role c = "admin")
               || bool_decide ((ps ← ctx_permissions c; assoc permission ps)
                               = Some true)
            then Next req else Respond (permission_denied permission)).
Proof.
  intros Hc. destruct (decide (ctx_role c = "admin")) as [Hadm|Hne].
  - rewrite bool_decide_eq_true_2 by done. simpl.
    unfold checkPermission, user_prop, M_bind, M_ret.
    rewrite (carries_role _ _ Hc), Hadm.
    by destruct Hc as (claims & -> & _).
  - rewrite (bool_decide_eq_false_2 _ Hne). simpl.
    by apply checkPermission_identity.
Qed.

(** The role check looks at the role alone: an identity passes exactly when
    its role is the required one, whatever flags it carries, and [role] is
    the only member read. *)
Theorem checkRole_by_identity (c : IdentityContext) (required_role : string)
    (req : Request) :
  carries (user req) c →
  checkRole required_role req
  = (["role"],
     Normal (if bool_decide (ctx_role c = required_role) then Next req
             else Respond (respond 403 "Access denied: Insufficient permissions"))).
Proof. apply checkRole_carries. Qed.

Lemma checkRole_by_identity_witness :
  let full := mkIdentity "64b7f0c2a1d34e5f6a7b8c04" "sub3@example.com" "sub-admin"
                (Some [("dashboard", true); ("collegeManagement", true);
                       ("contentEditing", true); ("viewData", true)]) in
  checkRole "admin" (request_of full)
  = (["role"],
     Normal (Respond (respond 403 "Access denied: Insufficient permissions"))).
Proof.
  intros full.
  apply (checkRole_by_identity full "admin" (request_of full)).
  eexists; repeat split.
Defined.

(** The middleware chain of every endpoint completes normally on every
    request: no property is read from a value that was not tested before, so
    the error handler of app.js is never entered from a middleware. *)
Theorem chains_never_raise `{!Externals} (e : Endpoint) (req : Request) :
  ∃ o, completion (run_chain (chain_of e) req) = Normal o.
Proof.
  assert (∀ (mw : Middleware) r,
            (∀ r', ∃ o, completion (mw r') = Normal o) →
            ∃ o, completion (run_chain [verifyToken; mw] r) = Normal o) as Hpair.
  { intros mw r Hmw. unfold run_chain, M_bind, completion.
    unfold verifyToken.
    destruct (candidate_token r) as [[|ch s]|]; simpl; eauto.
    destruct (jwt_verify _) as [d|]; simpl; eauto.
    destruct (Hmw (set_user r d)) as [o Ho]. unfold completion in Ho.
    destruct (mw (set_user r d)) as [t [o'|err]]; simpl in *; [|done].
    destruct o'; simpl; eauto. }
  destruct e; simpl; eauto;
    try (apply (Hpair _ req (checkRole_total "admin"))).
  apply (Hpair _ req (checkPermission_total _)).
Qed.

(** What a token is issued from: identifier, email, role and flags.  Two
    records that differ in name or stored secret only get the same token, and
    the payload has no password member. *)
Theorem token_omits_secret `{!Externals} (id : string) (u u' : User) :
  email u = email u' → role u = role u' → permissions u = permissions u' →
  generateToken (id, u) = generateToken (id, u')
  ∧ own_key (payload (id, u)) "password" = None
  ∧ own_key (payload (id, u)) "name" = None.
Proof.
  intros He Hr Hp. unfold generateToken, payload. simpl.
  by rewrite He, Hr, Hp.
Qed.

Lemma token_omits_secret_witness :
  let renamed := mkUser "Someone" "admin@example.com" "$2b$other" admin
                   (permissions Examples.root) in
  generateToken ("64b7f0c2a1d34e5f6a7b8c01", Examples.root) = generateToken ("64b7f0c2a1d34e5f6a7b8c01", renamed)
  ∧ own_key (payload ("64b7f0c2a1d34e5f6a7b8c01", Examples.root)) "password" = None
  ∧ own_key (payload ("64b7f0c2a1d34e5f6a7b8c01", Examples.root)) "name" = None.
Proof.
  intros renamed.
  apply (token_omits_secret "64b7f0c2a1d34e5f6a7b8c01" Examples.root renamed); reflexivity.
Defined.

(** The identity that leaves the authentication gate is the decoding of the
    candidate token and nothing else: whatever [req.user] held before is
    replaced, and the rest of the request is passed on unchanged. *)
Theorem verifyToken_sound `{!Externals} (req req' : Request) :
  completion (verifyToken req) = Normal (Next req') →
  ∃ tok, candidate_token req = Some tok ∧ tok ≠ ""
         ∧ jwt_verify tok = Normal (user req')
         ∧ req' = set_user req (user req').
Proof.
  unfold verifyToken.
  destruct (candidate_token req) as [[|ch s]|]; simpl; try done.
  destruct (jwt_verify _) as [d|] eqn:Hd; simpl; [|done].
  intros [= <-]. exists (String ch s). by repeat split.
Qed.

Lemma verifyToken_sound_witness :
  let forged := mkRequest (Some "Bearer sub-admin.jwt") None
                  (identity_to_js Demo.admin_identity) "" empty_body in
  ∃ tok, candidate_token forged = Some tok ∧ tok ≠ ""
         ∧ jwt_verify tok = Normal (identity_to_js Demo.sub_identity)
         ∧ set_user forged (identity_to_js Demo.sub_identity)
           = set_user forged (identity_to_js Demo.sub_identity).
Proof.
  intros forged.
  apply (verifyToken_sound forged
           (set_user forged (identity_to_js Demo.sub_identity))).
  reflexivity.
Defined.

(** ** The gates in front of the handlers *)

Lemma chain_with_token `{!Externals} (mw : Middleware) req tok v :
  candidate_token req = Some tok → tok ≠ "" → jwt_verify tok = Normal v →
  completion (run_chain [verifyToken; mw] req)
  = match completion (mw (set_user req v)) with
    | Normal (Next req') => Normal (Next req')
    | c => c
    end.
Proof.
  intros Htok Hne Hv. unfold run_chain, M_bind.
  rewrite (verifyToken_token req tok Htok Hne), Hv. unfold M_ret, completion.
  destruct (mw (set_user req v)) as [t [[res|req']|err]]; done.
Qed.

(** When the first middleware lets a request through as [req'], the chain
    is decided by the second one on [req']. *)
Lemma chain_inv `{!Externals} (mw : Middleware) req o :
  completion (run_chain [verifyToken; mw] req) = Normal o →
  (∃ res, o = Respond res ∧ completion (verifyToken req) = Normal (Respond res))
  ∨ (∃ req1, completion (verifyToken req) = Normal (Next req1)
             ∧ completion (mw req1) = Normal o).
Proof.
  unfold run_chain, M_bind, completion.
  destruct (verifyToken req) as [t [[res|req1]|err]]; simpl; [| |done].
  - intros [= <-]. left. eauto.
  - destruct (mw req1) as [t' [[res|req2]|err]] eqn:Hmw; simpl; [| |done];
      intros [= <-]; right; exists req1; by rewrite Hmw.
Qed.

(** An admin endpoint hands the request to its handler exactly when the
    token decodes to an identity with role admin; any other identity is
    answered 403 and the handler is not run. *)
Theorem admin_gate `{!Externals} (e : Endpoint) (db : gmap string User) (req : Request)
    (tok : string) (v : JsVal) (c : IdentityContext) :
  admin_endpoint e = true →
  candidate_token req = Some tok → tok ≠ "" →
  jwt_verify tok = Normal v → carries v c →
  app e db req
  = if bool_decide (ctx_role c = "admin") then handler_of e db (set_user req v)
    else (db, respond 403 "Access denied: Insufficient permissions").
Proof.
  intros He Htok Hne Hv Hc. unfold app, route.
  assert (chain_of e = adminOnly) as -> by (by destruct e).
  unfold adminOnly. rewrite (chain_with_token _ req tok v Htok Hne Hv).
  rewrite (checkRole_carries c "admin" (set_user req v) Hc).
  unfold completion. simpl. by case_bool_decide.
Qed.

Lemma admin_gate_witness :
  let as_sub := mkRequest (Some "Bearer sub-admin.jwt") None JUndefined "64b7f0c2a1d34e5f6a7b8c02"
                          empty_body in
  let as_admin := mkRequest (Some "Bearer admin.jwt") None JUndefined "64b7f0c2a1d34e5f6a7b8c02"
                            empty_body in
  app DELETE_admin_sub_admin Examples.db2 as_sub
  = (Examples.db2, respond 403 "Access denied: Insufficient permissions")
  ∧ app DELETE_admin_sub_admin Examples.db2 as_admin
    = deleteSubAdmin Examples.db2
        (set_user as_admin (identity_to_js Demo.admin_identity)).
Proof.
  intros as_sub as_admin. split.
  - apply (admin_gate DELETE_admin_sub_admin Examples.db2 as_sub
             "sub-admin.jwt" (identity_to_js Demo.sub_identity)
             Demo.sub_identity);
      [reflexivity | reflexivity | by vm_compute | reflexivity
      | eexists; repeat split].
  - apply (admin_gate DELETE_admin_sub_admin Examples.db2 as_admin
             "admin.jwt" (identity_to_js Demo.admin_identity)
             Demo.admin_identity);
      [reflexivity | reflexivity | by vm_compute | reflexivity
      | eexists; repeat split].
Defined.

(** A feature endpoint answers 200 with its data exactly when the token
    decodes to an admin or to an identity whose flag for the endpoint's
    permission is true; otherwise it answers 403 naming the permission.
    The store is returned as it was. *)
Theorem feature_gate `{!Externals} (p : Permission) (db : gmap string User) (req : Request)
    (tok : string) (v : JsVal) (c : IdentityContext) :
  candidate_token req = Some tok → tok ≠ "" →
  jwt_verify tok = Normal v → carries v c →
  app (features p) db req
  = (db, if bool_decide (ctx_role c = "admin")
            || bool_decide (ctx_flag c p = Some true)
         then mkResponse 200 (feature_body p) []
         else permission_denied (permission_name p)).
Proof.
  intros Htok Hne Hv Hc. unfold app, route. simpl chain_of.
  rewrite (chain_with_token _ req tok v Htok Hne Hv).
  rewrite (checkPermission_carries c _ (set_user req v) Hc).
  unfold ctx_flag.
  by destruct (bool_decide (ctx_role c = "admin")
               || bool_decide (_ = Some true)).
Qed.

Lemma feature_gate_witness :
  let req := mkRequest None (Some "sub-admin.jwt") JUndefined "" empty_body in
  app (features dashboard) Examples.db2 req
  = (Examples.db2, mkResponse 200 (feature_body dashboard) [])
  ∧ app (features viewData) Examples.db2 req
    = (Examples.db2, permission_denied "viewData").
Proof.
  intros req. split.
  - apply (feature_gate dashboard Examples.db2 req "sub-admin.jwt"
             (identity_to_js Demo.sub_identity) Demo.sub_identity);
      [reflexivity | by vm_compute | reflexivity | eexists; repeat split].
  - apply (feature_gate viewData Examples.db2 req "sub-admin.jwt"
             (identity_to_js Demo.sub_identity) Demo.sub_identity);
      [reflexivity | by vm_compute | reflexivity | eexists; repeat split].
Defined.

Lemma checkRole_Next role req req' :
  completion (checkRole role req) = Normal (Next req') →
  req' = req ∧ prop (user req) "role" = Normal (JStr role).
Proof.
  unfold checkRole, user_prop, M_bind, M_ret, completion.
  destruct (truthy (user req)); simpl; [|done].
  destruct (prop (user req) "role") as [r|]; simpl; [|done].
  destruct (strict_eq_str r role) eqn:Hr; simpl; [|done].
  intros [= <-]. split; [done|].
  destruct r; try done. simpl in Hr. by apply String.eqb_eq in Hr as ->.
Qed.

(** No protected endpoint changes the store unless the request's token
    decodes to a value whose role is the string admin. *)
Theorem mutation_requires_admin `{!Externals} (e : Endpoint) (db : gmap string User)
    (req : Request) :
  protected e = true →
  (app e db req).1 ≠ db →
  ∃ tok v, candidate_token req = Some tok
           ∧ jwt_verify tok = Normal v
           ∧ prop v "role" = Normal (JStr "admin").
Proof.
  intros He Hchanged. unfold app, route in Hchanged.
  destruct (completion (run_chain (chain_of e) req)) as [[res|req']|err] eqn:Hrun;
    [done| |done].
  destruct e; try discriminate He; simpl in Hrun, Hchanged; try done.
  all: apply chain_inv in Hrun as [(res & [=] & _)|(req1 & Hv & Hrole)].
  all: apply verifyToken_sound in Hv as (tok & Htok & _ & Hdec & _).
  all: apply checkRole_Next in Hrole as [-> Hrole].
  all: by exists tok, (user req1).
Qed.

Lemma mutation_requires_admin_witness :
  let req := mkRequest (Some "Bearer admin.jwt") None JUndefined "64b7f0c2a1d34e5f6a7b8c02"
                       empty_body in
  ∃ tok v, candidate_token req = Some tok
           ∧ jwt_verify tok = Normal v
           ∧ prop v "role" = Normal (JStr "admin").
Proof.
  intros req.
  apply (mutation_requires_admin DELETE_admin_sub_admin Examples.db2 req);
    [reflexivity|].
  intros Heq. apply (f_equal (λ m : gmap string User, m !! "64b7f0c2a1d34e5f6a7b8c02")) in Heq.
  by vm_compute in Heq.
Defined.

(** The feature endpoints decide from the token alone: their answer is the
    same on every store, so a change of a sub-admin's stored flags does not
    reach requests made with a token issued before it. *)
Theorem feature_ignores_store `{!Externals} (p : Permission)
    (db db' : gmap string User) (req update : Request) :
  (app (features p) db req).2 = (app (features p) db' req).2
  ∧ (app (features p) (app PUT_admin_sub_admin db update).1 req).2
    = (app (features p) db req).2.
Proof.
  assert (∀ d d' : gmap string User,
            (app (features p) d req).2 = (app (features p) d' req).2) as Hany.
  { intros d d'. unfold app, route.
    by destruct (completion (run_chain (chain_of (features p)) req))
      as [[res|req']|err]. }
  split; apply Hany.
Qed.

(** ** What the endpoints do to the store *)

Lemma by_role_false (db : gmap string User) r :
  findOne (by_role r) db = None → ∀ j v, db !! j = Some v → role v ≠ r.
Proof.
  intros Hnone j v Hv Hr. rewrite findOne_None in Hnone.
  specialize (Hnone j v Hv). unfold by_role in Hnone. simpl in Hnone.
  rewrite is_role_eq in Hnone. by apply bool_decide_eq_false in Hnone.
Qed.

Lemma handler_step `{!Externals} (e : Endpoint) (db : gmap string User)
    (req : Request) :
  store_step db (handler_of e db req).1.
Proof.
  destruct e; simpl.
  - unfold admin_signup.
    destruct (findOne (by_role admin) db) eqn:Hfind; [constructor|].
    destruct (save db _) as [[db1 doc]|err] eqn:Hsave; simpl; [|constructor].
    apply save_inv in Hsave as (-> & Hfresh & Hrole & _).
    apply step_create; [done|]. intros _. by apply by_role_false.
  - unfold login.
    destruct (findOne _ db); simpl; [|constructor].
    destruct (comparePassword _ _) as [[]|]; simpl; constructor.
  - constructor.
  - unfold createSubAdmin. cbv zeta.
    destruct (findOne _ db) eqn:Hfind; [constructor|].
    destruct (save db _) as [[db1 doc]|err] eqn:Hsave; simpl; [|constructor].
    apply save_inv in Hsave as (-> & Hfresh & Hrole & _). simpl in Hrole.
    apply step_create; [done|]. congruence.
  - constructor.
  - unfold getSubAdmin, id_role_filter, castObjectId.
    destruct (isObjectId _); simpl; [|constructor].
    destruct (findOne _ db); constructor.
  - unfold updateSubAdmin, findOneAndUpdate, id_role_filter, castObjectId.
    destruct (isObjectId _); simpl; [|constructor].
    rewrite findOne_by_id_role.
    destruct (db !! params_id req) as [u|] eqn:Hu; simpl; [|constructor].
    rewrite is_role_eq. case_bool_decide as Hr; simpl; [|constructor].
    destruct (apply_set db _ _) as [u'|err] eqn:Hset; simpl; [|constructor].
    apply apply_set_frame in Hset as (Hrole & _). simpl in Hrole.
    apply (step_update db _ u u'); [done | done | congruence].
  - unfold deleteSubAdmin, findOneAndDelete, id_role_filter, castObjectId.
    destruct (isObjectId _); simpl; [|constructor].
    rewrite findOne_by_id_role.
    destruct (db !! params_id req) as [u|] eqn:Hu; simpl; [|constructor].
    rewrite is_role_eq. case_bool_decide as Hr; simpl; [|constructor].
    by apply (step_delete db _ u).
  - constructor.
Qed.

Lemma app_step `{!Externals} (e : Endpoint) (db : gmap string User)
    (req : Request) :
  store_step db (app e db req).1.
Proof.
  unfold app, route.
  destruct (completion (run_chain (chain_of e) req)) as [[res|req']|err];
    [constructor | apply handler_step | constructor].
Qed.

(** One request changes the collection in one of four ways at most: not at
    all, by one record added under an unused identifier (an admin only when
    the collection has none), by rewriting one sub-admin record that stays a
    sub-admin, or by removing one sub-admin record. *)
Theorem endpoints_effect `{!Externals} (e : Endpoint) (db : gmap string User)
    (req : Request) :
  store_step db (app e db req).1.
Proof. apply app_step. Qed.

(** Each request, handled on its own from its check to its write, keeps
    "at most one admin": run on a store with at most one admin record, an
    endpoint returns a store with at most one.  Requests that overlap
    between the lookup and the write of the signup are not what this
    states. *)
Theorem one_admin_invariant `{!Externals} (e : Endpoint)
    (db : gmap string User) (req : Request) :
  at_most_one_admin db → at_most_one_admin (app e db req).1.
Proof.
  intros Hinv. destruct (app_step e db req) as [|i u Hfresh Hnew|i u u' Hu Hr Hr'|i u Hu Hr].
  - done.
  - intros j k v w Hv Hw Hrv Hrw.
    destruct (decide (i = j)) as [<-|Hij], (decide (i = k)) as [<-|Hik];
      [done|..].
    + rewrite lookup_insert_eq in Hv. rewrite lookup_insert_ne in Hw by done.
      simplify_eq. by destruct (Hnew Hrv k w Hw).
    + rewrite lookup_insert_eq in Hw. rewrite lookup_insert_ne in Hv by done.
      simplify_eq. by destruct (Hnew Hrw j v Hv).
    + rewrite lookup_insert_ne in Hv, Hw by done. by apply (Hinv j k v w).
  - intros j k v w Hv Hw Hrv Hrw.
    destruct (decide (i = j)) as [<-|Hij];
      [rewrite lookup_insert_eq in Hv; simplify_eq; congruence|].
    destruct (decide (i = k)) as [<-|Hik];
      [rewrite lookup_insert_eq in Hw; simplify_eq; congruence|].
    rewrite lookup_insert_ne in Hv, Hw by done. by apply (Hinv j k v w).
  - intros j k v w Hv Hw Hrv Hrw.
    apply lookup_delete_Some in Hv as [_ Hv].
    apply lookup_delete_Some in Hw as [_ Hw]. by apply (Hinv j k v w).
Qed.

Lemma one_admin_invariant_witness :
  let req := mkRequest (Some "Bearer admin.jwt") None JUndefined ""
               (mkBody (Some "Sub Two") (Some "sub2@example.com")
                       (Some "Sub@456") JUndefined) in
  at_most_one_admin (app POST_admin_sub_admin Examples.db2 req).1.
Proof.
  intros req. apply (one_admin_invariant POST_admin_sub_admin Examples.db2 req).
  intros i j u v Hu Hv Hru Hrv. unfold Examples.db2, Examples.db1 in *.
  apply lookup_insert_Some in Hu as [[<- <-]|[_ Hu]]; [discriminate Hru|].
  apply lookup_insert_Some in Hv as [[<- <-]|[_ Hv]]; [discriminate Hrv|].
  apply lookup_singleton_Some in Hu as [<- _].
  by apply lookup_singleton_Some in Hv as [<- _].
Defined.

(** No endpoint removes or alters an admin record: whatever the request,
    the record is in the resulting store as it was. *)
Theorem admin_record_kept `{!Externals} (e : Endpoint) (db : gmap string User)
    (req : Request) (i : string) (u : User) :
  db !! i = Some u → role u = admin →
  (app e db req).1 !! i = Some u.
Proof.
  intros Hu Hr.
  destruct (app_step e db req) as [|j v Hfresh _|j v v' Hv Hrv _|j v Hv Hrv].
  - done.
  - rewrite lookup_insert_ne; [done|]. intros ->. congruence.
  - rewrite lookup_insert_ne; [done|]. intros ->. simplify_eq. congruence.
  - rewrite lookup_delete_ne; [done|]. intros ->. simplify_eq. congruence.
Qed.

Lemma admin_record_kept_witness :
  let req := mkRequest (Some "Bearer admin.jwt") None JUndefined "64b7f0c2a1d34e5f6a7b8c01"
                       (mkBody (Some "Renamed") None None JUndefined) in
  (app DELETE_admin_sub_admin Examples.db2 req).1 !! "64b7f0c2a1d34e5f6a7b8c01" = Some Examples.root
  ∧ (app PUT_admin_sub_admin Examples.db2 req).1 !! "64b7f0c2a1d34e5f6a7b8c01" = Some Examples.root.
Proof.
  intros req. split.
  - apply (admin_record_kept DELETE_admin_sub_admin Examples.db2 req "64b7f0c2a1d34e5f6a7b8c01");
      by vm_compute.
  - apply (admin_record_kept PUT_admin_sub_admin Examples.db2 req "64b7f0c2a1d34e5f6a7b8c01");
      by vm_compute.
Defined.

(** An endpoint that answers with a client error (400, 401, 403 or 404)
    has written nothing: each of these answers is given before any write of
    the handler, so the store is as it was. *)
Theorem failure_leaves_store `{!Externals} (e : Endpoint)
    (db : gmap string User) (req : Request) :
  (400 ≤ status (app e db req).2 < 500)%nat → (app e db req).1 = db.
Proof.
  unfold app, route.
  destruct (completion (run_chain (chain_of e) req)) as [[res|req']|err];
    [done| |done].
  destruct e; simpl.
  - unfold admin_signup. destruct (findOne _ db); [done|].
    destruct (save db _) as [[db1 doc]|]; simpl; [lia|done].
  - unfold login. destruct (findOne _ db); [|done].
    by destruct (comparePassword _ _) as [[]|].
  - done.
  - unfold createSubAdmin. cbv zeta. destruct (findOne _ db); [done|].
    destruct (save db _) as [[db1 doc]|]; simpl; [lia|done].
  - done.
  - unfold getSubAdmin. destruct (id_role_filter _ _); simpl; [|done].
    by destruct (findOne _ db).
  - unfold updateSubAdmin, findOneAndUpdate.
    destruct (id_role_filter _ _); simpl; [|done].
    destruct (findOne _ db); simpl; [|done].
    destruct (apply_set db _ _); simpl; [lia|done].
  - unfold deleteSubAdmin, findOneAndDelete.
    destruct (id_role_filter _ _); simpl; [|done].
    destruct (findOne _ db); simpl; [lia|done].
  - done.
Qed.

Lemma failure_leaves_store_witness :
  let req := mkRequest (Some "Bearer admin.jwt") None JUndefined "64b7f0c2a1d34e5f6a7b8c01"
                       (mkBody (Some "Renamed") None None JUndefined) in
  status (app PUT_admin_sub_admin Examples.db2 req).2 = 404
  ∧ (app PUT_admin_sub_admin Examples.db2 req).1 = Examples.db2.
Proof.
  intros req.
  assert (status (app PUT_admin_sub_admin Examples.db2 req).2 = 404) as Hs
    by (by vm_compute).
  split; [exact Hs|].
  apply (failure_leaves_store PUT_admin_sub_admin Examples.db2 req).
  rewrite Hs. lia.
Defined.

(** Login, logout, the two sub-admin queries and the feature endpoints
    never write: the store they return is the store they were given. *)
Theorem read_only_endpoints `{!Externals} (e : Endpoint)
    (db : gmap string User) (req : Request) :
  read_only e = true → (app e db req).1 = db.
Proof.
  intros He. unfold app, route.
  destruct (completion (run_chain (chain_of e) req)) as [[res|req']|err];
    [done| |done].
  destruct e; try discriminate He; simpl; try done.
  - unfold login. destruct (findOne _ db); [|done].
    by destruct (comparePassword _ _) as [[]|].
  - unfold getSubAdmin. destruct (id_role_filter _ _); simpl; [|done].
    by destruct (findOne _ db).
Qed.

Lemma read_only_endpoints_witness :
  let req := Examples.post (mkBody None (Some "admin@example.com")
                                   (Some "Admin@123") JUndefined) in
  status (app POST_auth_login Examples.db1 req).2 = 200
  ∧ (app POST_auth_login Examples.db1 req).1 = Examples.db1.
Proof.
  intros req. split; [by vm_compute|].
  apply (read_only_endpoints POST_auth_login Examples.db1 req). reflexivity.
Defined.

(** ** The account lifecycle, operation by operation *)

Lemma findOne_unique f (db : gmap string User) i u :
  db !! i = Some u → f (i, u) = true →
  (∀ j v, db !! j = Some v → f (j, v) = true → j = i) →
  findOne f db = Some (i, u).
Proof.
  intros Hu Hf Huniq.
  destruct (findOne_is_Some f db i u Hu Hf) as [[j v] Hd]. rewrite Hd.
  apply findOne_Some in Hd as [Hv Hfv]. simpl in *.
  assert (j = i) as -> by eauto. rewrite Hu in Hv. by injection Hv as ->.
Qed.

Lemma email_taken_inv (db : gmap string User) e :
  email_taken db None e = false → ∀ i u, db !! i = Some u → email u ≠ e.
Proof.
  intros Hex i u Hu He. apply not_true_iff_false in Hex. apply Hex.
  unfold email_taken. apply existsb_exists. exists (i, u). split.
  - by apply list_elem_of_In, elem_of_map_to_list.
  - simpl. by rewrite He, String.eqb_refl.
Qed.

Lemma save_fields `{!Externals} db d db' doc :
  save db d = Normal (db', doc) →
  d_name d = Some (name doc.2)
  ∧ d_email d = Some (email doc.2)
  ∧ (∃ pw, d_password d = Some pw ∧ password doc.2 = derive_secret pw)
  ∧ (∀ i u, db !! i = Some u → email u ≠ email doc.2).
Proof.
  unfold save.
  destruct (cast_permissions (d_permissions d)) as [ps|]; simpl; [|done].
  destruct (required "name" _) as [n|] eqn:Hn; simpl; [|done].
  destruct (required "email" _) as [e|] eqn:He; simpl; [|done].
  destruct (required "password" _) as [pw|] eqn:Hpw; simpl; [|done].
  unfold unique_email.
  destruct (email_taken db None e) eqn:Htaken; simpl; [done|].
  intros [= <- <-]. simpl.
  apply required_Normal in Hn, He, Hpw.
  split; [done|]. split; [done|]. split; [by exists pw|].
  by apply email_taken_inv.
Qed.

Lemma by_email_false (db : gmap string User) e :
  findOne (by_email (Some e)) db = None →
  ∀ j v, db !! j = Some v → email v ≠ e.
Proof.
  intros Hnone j v Hv He. rewrite findOne_None in Hnone.
  specialize (Hnone j v Hv). simpl in Hnone. by apply String.eqb_neq in Hnone.
Qed.

(** Creating a sub-admin keeps emails unique: the handler refuses an email
    that a record already has. *)
Theorem create_keeps_emails_unique `{!Externals} (db : gmap string User)
    (req : Request) :
  emails_unique db → emails_unique (createSubAdmin db req).1.
Proof.
  intros Hinv. unfold createSubAdmin. cbv zeta.
  destruct (findOne _ db) eqn:Hfind; [done|].
  destruct (save db _) as [[db1 doc]|err] eqn:Hsave; simpl; [|done].
  destruct (save_fields _ _ _ _ Hsave) as (_ & He & _ & _). simpl in He.
  rewrite He in Hfind. pose proof (by_email_false db _ Hfind) as Hfree.
  apply save_inv in Hsave as (-> & _ & _ & _).
  intros j k v w Hv Hw Hvw.
  destruct (decide (doc.1 = j)) as [<-|Hj], (decide (doc.1 = k)) as [<-|Hk];
    [done|..].
  - rewrite lookup_insert_eq in Hv. rewrite lookup_insert_ne in Hw by done.
    simplify_eq. by destruct (Hfree k w Hw).
  - rewrite lookup_insert_eq in Hw. rewrite lookup_insert_ne in Hv by done.
    simplify_eq. by destruct (Hfree j v Hv).
  - rewrite lookup_insert_ne in Hv, Hw by done. by apply (Hinv j k v w).
Qed.

Lemma create_keeps_emails_unique_witness :
  let req := Examples.post (mkBody (Some "Sub Two") (Some "sub2@example.com")
                                   (Some "Sub@456") JUndefined) in
  emails_unique (createSubAdmin Examples.db1 req).1.
Proof.
  intros req. apply (create_keeps_emails_unique Examples.db1 req).
  intros i j u v Hu Hv _. unfold Examples.db1 in *.
  apply lookup_singleton_Some in Hu as [<- _].
  by apply lookup_singleton_Some in Hv as [<- _].
Defined.

(** Sub-admin creation: an email that is in use is answered 400 and nothing
    is stored.  Otherwise, with a non-empty name, email and secret and
    well-formed flags, one record is added under an unused identifier, with
    role sub-admin whatever the request says and the secret stored as its
    derivation; the answer is 201 and shows id, name, email and flags, not
    the secret. *)
Theorem createSubAdmin_spec `{!Externals} (db : gmap string User)
    (req : Request) :
  ((∃ i u, db !! i = Some u ∧ b_email (body req) = Some (email u)) →
   createSubAdmin db req = (db, respond 400 "Email already in use"))
  ∧ (∀ n e pw ps,
      (∀ i u, db !! i = Some u → email u ≠ e) →
      b_name (body req) = Some n → n ≠ "" →
      b_email (body req) = Some e → e ≠ "" →
      b_password (body req) = Some pw → pw ≠ "" →
      cast_permissions (if truthy (b_permissions (body req))
                        then b_permissions (body req) else JObj [])
      = Normal ps →
      let id := newObjectId (dom db) in
      let u := mkUser n e (derive_secret pw) sub_admin ps in
      db !! id = None
      ∧ createSubAdmin db req
        = (<[id := u]> db,
           mkResponse 201
             (JObj [("message", JStr "Sub-admin created successfully");
                    ("subAdmin",
                     JObj [("id", JStr id); ("name", JStr n);
                           ("email", JStr e);
                           ("permissions", JObj (flags_to_js ps))])]) [])).
Proof.
  split.
  - intros (i & u & Hu & He). unfold createSubAdmin. cbv zeta.
    destruct (findOne_is_Some (by_email (b_email (body req))) db i u Hu)
      as [d ->]; [|done].
    rewrite He. simpl. apply String.eqb_refl.
  - intros n e pw ps Hfree Hn Hn' He He' Hpw Hpw' Hps id u.
    split; [apply not_elem_of_dom, newObjectId_fresh|].
    unfold createSubAdmin. cbv zeta.
    assert (findOne (by_email (b_email (body req))) db = None) as ->.
    { apply findOne_None. intros i v Hv. rewrite He. simpl.
      apply String.eqb_neq. by apply (Hfree i v). }
    by erewrite save_Normal.
Qed.

Lemma createSubAdmin_spec_witness :
  let taken := Examples.post (mkBody (Some "Dup") (Some "admin@example.com")
                                     (Some "x") JUndefined) in
  let req := Examples.post
               (mkBody (Some "Sub One") (Some "sub1@example.com")
                       (Some "Sub@123") (JObj [("dashboard", JBool true)])) in
  createSubAdmin Examples.db1 taken
  = (Examples.db1, respond 400 "Email already in use")
  ∧ Examples.db1 !! newObjectId (dom Examples.db1) = None
  ∧ createSubAdmin Examples.db1 req
    = (<[newObjectId (dom Examples.db1) := Examples.sub1]> Examples.db1,
       mkResponse 201
         (JObj [("message", JStr "Sub-admin created successfully");
                ("subAdmin",
                 JObj [("id", JStr (newObjectId (dom Examples.db1)));
                       ("name", JStr "Sub One");
                       ("email", JStr "sub1@example.com");
                       ("permissions",
                        JObj (flags_to_js (permissions Examples.sub1)))])]) []).
Proof.
  intros taken req. split.
  - apply (proj1 (createSubAdmin_spec Examples.db1 taken)).
    exists "64b7f0c2a1d34e5f6a7b8c01", Examples.root. split; reflexivity.
  - refine (proj2 (createSubAdmin_spec Examples.db1 req)
              "Sub One" "sub1@example.com" "Sub@123"
              (permissions Examples.sub1) _ _ _ _ _ _ _ _);
      try reflexivity; try (by vm_compute).
    intros i u Hu. unfold Examples.db1 in Hu.
    apply lookup_singleton_Some in Hu as [_ <-]. by vm_compute.
Defined.

Lemma login_found `{!Externals} (db : gmap string User) (req : Request) i u :
  db !! i = Some u →
  b_email (body req) = Some (email u) →
  (∀ j v, db !! j = Some v → email v = email u → j = i) →
  comparePassword u (b_password (body req)) = Normal true →
  login db req
  = (db, mkResponse 200
           (JObj [("message", JStr "Login successful");
                  ("user", JObj [("id", JStr i); ("name", JStr (name u));
                                 ("email", JStr (email u));
                                 ("role", JStr (role_name (role u)));
                                 ("permissions",
                                  JObj (flags_to_js (permissions u)))]);
                  ("token", JStr (generateToken (i, u)))])
           [SetCookie "token" (generateToken (i, u)) true
              (bool_decide (NODE_ENV = Some "production")) 3600000]).
Proof.
  intros Hu He Huniq Hcmp. unfold login. rewrite He.
  rewrite (findOne_unique (by_email (Some (email u))) db i u Hu).
  - simpl. by rewrite Hcmp.
  - simpl. apply String.eqb_refl.
  - intros j v Hv Hf. simpl in Hf. apply String.eqb_eq in Hf. by apply (Huniq j v).
Qed.

(** A login with the email of a record and a secret that matches it is
    answered 200 with a token issued for that record, the same token in an
    http-only [token] cookie of one hour that is marked secure in production
    only, and a view of the user without the stored secret. *)
Theorem login_success `{!Externals} (db : gmap string User) (req : Request)
    (i : string) (u : User) :
  db !! i = Some u →
  b_email (body req) = Some (email u) →
  (∀ j v, db !! j = Some v → email v = email u → j = i) →
  comparePassword u (b_password (body req)) = Normal true →
  login db req
  = (db, mkResponse 200
           (JObj [("message", JStr "Login successful");
                  ("user", JObj [("id", JStr i); ("name", JStr (name u));
                                 ("email", JStr (email u));
                                 ("role", JStr (role_name (role u)));
                                 ("permissions",
                                  JObj (flags_to_js (permissions u)))]);
                  ("token", JStr (generateToken (i, u)))])
           [SetCookie "token" (generateToken (i, u)) true
              (bool_decide (NODE_ENV = Some "production")) 3600000]).
Proof. apply login_found. Qed.

Lemma login_success_witness :
  let req := Examples.post (mkBody None (Some "sub1@example.com")
                                   (Some "Sub@123") JUndefined) in
  login Examples.db2 req
  = (Examples.db2,
     mkResponse 200
       (JObj [("message", JStr "Login successful");
              ("user", JObj [("id", JStr "64b7f0c2a1d34e5f6a7b8c02"); ("name", JStr "Sub One");
                             ("email", JStr "sub1@example.com");
                             ("role", JStr "sub-admin");
                             ("permissions",
                              JObj (flags_to_js (permissions Examples.sub1)))]);
              ("token", JStr "sub-admin.jwt")])
       [SetCookie "token" "sub-admin.jwt" true true 3600000]).
Proof.
  intros req.
  refine (login_success Examples.db2 req "64b7f0c2a1d34e5f6a7b8c02" Examples.sub1 _ _ _ _);
    [by vm_compute | reflexivity | | reflexivity].
  intros j v Hv He. unfold Examples.db2, Examples.db1 in Hv.
  apply lookup_insert_Some in Hv as [[<- _]|[_ Hv]]; [done|].
  apply lookup_singleton_Some in Hv as [_ <-]. by vm_compute in He.
Defined.

Lemma signup_201 `{!Externals} (db : gmap string User) (req : Request) :
  status (admin_signup db req).2 = 201 →
  ∃ doc, save db (mkDraft (b_name (body req)) (b_email (body req))
                          (b_password (body req)) admin all_true)
         = Normal ((admin_signup db req).1, doc)
         ∧ json (admin_signup db req).2
           = JObj [("message", JStr "Admin account created successfully");
                   ("token", JStr (generateToken doc))].
Proof.
  unfold admin_signup.
  destruct (findOne (by_role admin) db); [done|].
  destruct (save db _) as [[db1 doc]|err] eqn:Hsave; simpl; [|done].
  intros _. by exists doc.
Qed.

(** Once a signup has created the admin, every further signup is answered
    400 and stores nothing, whatever it carries. *)
Theorem signup_twice_conflict `{!Externals} (db : gmap string User)
    (first second : Request) :
  status (admin_signup db first).2 = 201 →
  admin_signup (admin_signup db first).1 second
  = ((admin_signup db first).1, respond 400 "Admin account already exists").
Proof.
  intros (doc & Hsave & _)%signup_201.
  apply save_inv in Hsave as (Hdb & _ & Hrole & _). simpl in Hrole.
  set (db1 := (admin_signup db first).1) in *. unfold admin_signup.
  destruct (findOne_is_Some (by_role admin) db1 doc.1 doc.2) as [d ->];
    [rewrite Hdb; apply lookup_insert_eq| |done].
  unfold by_role. simpl. by rewrite Hrole.
Qed.

Lemma signup_twice_conflict_witness :
  let first := Examples.post (mkBody (Some "Admin") (Some "admin@example.com")
                                     (Some "Admin@123") JUndefined) in
  let second := Examples.post (mkBody (Some "Eve") (Some "eve@example.com")
                                      (Some "Eve@123") JUndefined) in
  admin_signup (admin_signup ∅ first).1 second
  = ((admin_signup ∅ first).1, respond 400 "Admin account already exists").
Proof.
  intros first second.
  apply (signup_twice_conflict ∅ first second). by vm_compute.
Defined.

(** Signup then login: when the comparison accepts the secret a stored
    derivation was made from, the credentials of a successful signup log in
    on the resulting store, with a token for an admin record of that store. *)
Theorem signup_then_login `{!Externals} (db : gmap string User)
    (req : Request) :
  (∀ u pw, password u = derive_secret pw →
           comparePassword u (Some pw) = Normal true) →
  status (admin_signup db req).2 = 201 →
  ∃ i u, (admin_signup db req).1 !! i = Some u
         ∧ role u = admin
         ∧ own_key (json (login (admin_signup db req).1 req).2) "token"
           = Some (JStr (generateToken (i, u)))
         ∧ status (login (admin_signup db req).1 req).2 = 200.
Proof.
  intros Hcmp (doc & Hsave & _)%signup_201.
  destruct (save_fields _ _ _ _ Hsave) as (_ & He & (pw & Hpw & Hstored) & Hfree).
  apply save_inv in Hsave as (Hdb & Hfresh & Hrole & _). simpl in *.
  set (db1 := (admin_signup db req).1) in *.
  assert (db1 !! doc.1 = Some doc.2) as Hdoc
    by (rewrite Hdb; apply lookup_insert_eq).
  exists doc.1, doc.2. split; [done|]. split; [done|].
  rewrite (login_found db1 req doc.1 doc.2).
  - done.
  - done.
  - done.
  - intros j v Hv Hev. destruct (decide (doc.1 = j)) as [|Hne]; [done|].
    rewrite Hdb, lookup_insert_ne in Hv by done. by destruct (Hfree j v Hv).
  - rewrite Hpw. by apply Hcmp.
Qed.

Lemma signup_then_login_witness :
  let req := Examples.post (mkBody (Some "Admin") (Some "admin@example.com")
                                   (Some "Admin@123") JUndefined) in
  ∃ i u, (admin_signup ∅ req).1 !! i = Some u
         ∧ role u = admin
         ∧ own_key (json (login (admin_signup ∅ req).1 req).2) "token"
           = Some (JStr (generateToken (i, u)))
         ∧ status (login (admin_signup ∅ req).1 req).2 = 200.
Proof.
  intros req. apply (signup_then_login ∅ req); [|by vm_compute].
  intros u pw Hu.
  change (Normal (String.eqb (Demo.derive pw) (password u)) = Normal true).
  change (password u = Demo.derive pw) in Hu.
  by rewrite Hu, String.eqb_refl.
Defined.

Lemma save_id `{!Externals} db d db' doc :
  save db d = Normal (db', doc) → isObjectId doc.1 = true.
Proof.
  unfold save.
  destruct (cast_permissions (d_permissions d)) as [ps|]; simpl; [|done].
  destruct (required "name" _) as [n|]; simpl; [|done].
  destruct (required "email" _) as [e|]; simpl; [|done].
  destruct (required "password" _) as [pw|]; simpl; [|done].
  destruct (unique_email db None e) as [e'|]; simpl; [|done].
  intros [= <- <-]. apply newObjectId_valid.
Qed.

(** Create then delete: the identifier that a successful creation answers
    with is the one under which the record can be fetched, and deleting it
    gives back the store from before the creation. *)
Theorem create_then_delete `{!Externals} (db : gmap string User)
    (req : Request) :
  status (createSubAdmin db req).2 = 201 →
  ∃ id, (v ← own_key (json (createSubAdmin db req).2) "subAdmin";
         own_key v "id") = Some (JStr id)
        ∧ ∀ req', params_id req' = id →
            status (getSubAdmin (createSubAdmin db req).1 req').2 = 200
            ∧ deleteSubAdmin (createSubAdmin db req).1 req'
              = (db, respond 200 "Sub-admin deleted successfully").
Proof.
  unfold createSubAdmin. cbv zeta.
  destruct (findOne _ db); [done|].
  destruct (save db _) as [[db1 doc]|err] eqn:Hsave; simpl; [|done].
  intros _. pose proof (save_id _ _ _ _ Hsave) as Hvalid.
  apply save_inv in Hsave as (-> & Hfresh & Hrole & _).
  simpl in Hrole. exists doc.1. split; [done|].
  intros req' Hid.
  assert (findOne (by_id_role (params_id req') sub_admin) (<[doc.1 := doc.2]> db)
          = Some (doc.1, doc.2)) as Hfound.
  { rewrite Hid. apply findOne_sub_admin_Some; [apply lookup_insert_eq|done]. }
  unfold getSubAdmin, deleteSubAdmin, findOneAndDelete.
  rewrite (id_role_filter_ok (params_id req') sub_admin)
    by (by rewrite Hid).
  simpl. rewrite Hfound. simpl.
  split; [done|]. by rewrite delete_insert_id.
Qed.

Lemma create_then_delete_witness :
  let req := Examples.post
               (mkBody (Some "Sub One") (Some "sub1@example.com")
                       (Some "Sub@123") (JObj [("dashboard", JBool true)])) in
  ∃ id, (v ← own_key (json (createSubAdmin Examples.db1 req).2) "subAdmin";
         own_key v "id") = Some (JStr id)
        ∧ ∀ req', params_id req' = id →
            status (getSubAdmin (createSubAdmin Examples.db1 req).1 req').2 = 200
            ∧ deleteSubAdmin (createSubAdmin Examples.db1 req).1 req'
              = (Examples.db1, respond 200 "Sub-admin deleted successfully").
Proof.
  intros req. apply (create_then_delete Examples.db1 req). by vm_compute.
Defined.

(** The listing holds each sub-admin record once and no other record, so
    never the admin; no item has a password member; the store is returned
    as it was. *)
Theorem listSubAdmins_spec `{!Externals} (db : gmap string User)
    (req : Request) :
  ∃ docs,
    listSubAdmins db req
    = (db, mkResponse 200
             (JObj [("subAdmins", JArr (without_password <$> docs))]) [])
    ∧ NoDup docs
    ∧ (∀ d, d ∈ docs ↔ db !! d.1 = Some d.2 ∧ role d.2 = sub_admin)
    ∧ (∀ d, d ∈ docs → own_key (without_password d) "password" = None).
Proof.
  exists (find (by_role sub_admin) db). split; [done|]. split; [|split].
  - unfold find. apply NoDup_ListNoDup, List.NoDup_filter, NoDup_ListNoDup.
    apply NoDup_map_to_list.
  - intros d. rewrite find_elem_of. unfold by_role.
    rewrite is_role_eq, bool_decide_eq_true. done.
  - done.
Qed.


